(** * PubChem SMILES fetcher: a shallow embedding of
      [pubchem_smiles_automation.py] and the properties of its three
      functions [get_smiles_from_pubchem], [batch_get_smiles] and
      [process_compounds_from_file].

    The Python code talks to the network, reads a file, prints and sleeps.
    Those effects are modelled by a small monad: a computation is given the
    number of HTTP requests issued before it started (the index into the
    network's answers) and yields an outcome, a value or a raised exception,
    together with the events it emitted, oldest first.

    The libraries are modelled as documented for Python 3.7 and later and
    requests 2.27 and later: [urllib.parse.quote] leaves the tilde alone,
    and the error of [response.json()] on a body that is not JSON is a
    [RequestException].  Text is a sequence of UTF-8 bytes.  What the
    network, the file system and [time.sleep] do is not decided here: the
    program is modelled for every behaviour of theirs. *)

From Stdlib Require Import List String Ascii ZArith Bool Arith Lia.
From Stdlib Require Import PrimFloat DecimalString.
Import ListNotations.
Local Open Scope nat_scope.
Local Open Scope string_scope.
Local Open Scope list_scope.

(** ** Python values

    The values [response.json()] can produce.  A [PDict] lists the bindings
    of a dict in insertion order; its keys are distinct and, the dict being a
    decoded JSON object, strings.  Text is kept as the sequence of its UTF-8
    bytes. *)

#[local] Set Warnings "-register-all".

Inductive pyval : Type :=
| PNone
| PBool (b : bool)
| PInt (z : Z)
| PFloat (f : float)
| PStr (s : string)
| PList (items : list pyval)
| PDict (bindings : list (string * pyval)).

(** The exception classes that occur in the three functions.
    [RequestException] stands for the whole hierarchy under
    [requests.exceptions.RequestException]: connection failures, timeouts,
    the [HTTPError] of [raise_for_status] and the [JSONDecodeError] of
    [response.json()], which belongs to it from requests 2.27 on.  [OSError]
    stands for the errors of the operating system that have no class of
    their own here. *)

Inductive exn : Type :=
| RequestException
| KeyError
| IndexError
| TypeError
| ValueError
| FileNotFoundError
| PermissionError
| IsADirectoryError
| NotADirectoryError
| OSError
| UnicodeDecodeError
| OverflowError
| RecursionError.

Inductive outcome (A : Type) : Type :=
| Return (a : A)
| Raise (e : exn).
Arguments Return {A} a.
Arguments Raise {A} e.

(** What [print] writes: the f-string of each call site, with its holes
    kept as fields. *)

Inductive message : Type :=
| MsgNoSmiles (compound_name : string)
    (* "No SMILES found for {compound_name}" *)
| MsgError (compound_name : string) (e : exn)
    (* "Error fetching SMILES for {compound_name}: {e}" *)
| MsgProcessing (total : nat)
    (* "Processing {len(compound_names)} compounds..." *)
| MsgProgress (i total : nat) (compound_name : string)
    (* "Processing {i}/{len(compound_names)}: {compound_name}" *)
| MsgFileNotFound (filename : string).
    (* "Error: File {filename} not found." *)

Inductive event : Type :=
| Print (m : message)
| HttpGet (url : string) (timeout : Z)
| Sleep (seconds : float).

(** What the network answers to one GET: no usable response at all (the
    call raises a [RequestException]: connection error, timeout, ...), or a
    response with a status code and a body.  The body decodes as JSON to a
    value, or it does not, and then [why_not] says how: it is not JSON, or it
    is JSON that the decoder gives up on, for an integer of more digits than
    the limit of the interpreter, or for a nesting deeper than its stack. *)

Inductive json_failure : Type :=
| NotJSON
| HugeInteger
| TooDeep.

Record response : Type := FullResponse
  { status_code : Z;
    body : option pyval;
    why_not : json_failure }.

(** A response whose body, when it does not decode, is not JSON. *)
Definition Response (status_code : Z) (body : option pyval) : response :=
  FullResponse status_code body NotJSON.

Inductive http_result : Type :=
| NoResponse
| Responded (r : response).

(** What the file system answers to [open(filename, 'r')] and to the
    reading that follows: [FileNotFoundError] (no such file or directory),
    [PermissionError], [IsADirectoryError], [NotADirectoryError] (a part of
    the path is a file), the [ValueError] of a name with a NUL in it, another
    [OSError] (a name too long, an input error), a content that does not
    decode as text ([UnicodeDecodeError] when the lines are read), or the
    decoded content of the file. *)

Inductive open_result : Type :=
| NotFound
| PermissionDenied
| IsADirectory
| Opened (text : string)
| NotADirectory
| BadName
| OtherOSError
| Undecodable.

(** ** The effect monad *)

Definition M (A : Type) : Type := nat -> outcome A * list event.

Definition requests_in (evs : list event) : nat :=
  List.length (filter (fun ev => match ev with HttpGet _ _ => true | _ => false end) evs).

Definition ret {A} (a : A) : M A := fun _ => (Return a, []).

Definition raise {A} (e : exn) : M A := fun _ => (Raise e, []).

Definition bind {A B} (m : M A) (k : A -> M B) : M B :=
  fun n =>
    match m n with
    | (Return a, evs) =>
        let (r, evs') := k a (n + requests_in evs) in (r, evs ++ evs')
    | (Raise e, evs) => (Raise e, evs)
    end.

(** [try: m except catches as e: handler e] *)
Definition try_except {A} (m : M A) (catches : exn -> bool) (handler : exn -> M A) : M A :=
  fun n =>
    match m n with
    | (Return a, evs) => (Return a, evs)
    | (Raise e, evs) =>
        if catches e
        then let (r, evs') := handler e (n + requests_in evs) in (r, evs ++ evs')
        else (Raise e, evs)
    end.

Definition emit (ev : event) : M unit := fun _ => (Return tt, [ev]).

Definition print (m : message) : M unit := emit (Print m).

Declare Scope py_scope.
Delimit Scope py_scope with py.
Notation "x <- m ;; k" := (bind m (fun x => k))
  (at level 61, m at next level, right associativity) : py_scope.
Notation "m ;; k" := (bind m (fun _ => k))
  (at level 61, right associativity) : py_scope.
Local Open Scope py_scope.

(** ** Python built-ins used by the code *)

(** [bool(v)], the test of [if v] and of the conditional expression. *)
Definition py_truthy (v : pyval) : bool :=
  match v with
  | PNone => false
  | PBool b => b
  | PInt z => negb (z =? 0)%Z
  | PFloat f => negb (PrimFloat.eqb f PrimFloat.zero)
  | PStr s => negb (s =? "")
  | PList items => match items with [] => false | _ => true end
  | PDict bindings => match bindings with [] => false | _ => true end
  end.

Fixpoint dict_get (k : string) (bindings : list (string * pyval)) : option pyval :=
  match bindings with
  | [] => None
  | (k', v) :: rest => if k' =? k then Some v else dict_get k rest
  end.

(** [v[key]] for a string key. *)
Definition getitem_str (v : pyval) (key : string) : M pyval :=
  match v with
  | PDict bindings =>
      match dict_get key bindings with
      | Some x => ret x
      | None => raise KeyError
      end
  | _ => raise TypeError
  end.

(** The number of bytes of the UTF-8 character that starts with byte [c]. *)
Definition utf8_width (c : ascii) : nat :=
  if (nat_of_ascii c <? 192)%nat then 1
  else if (nat_of_ascii c <? 224)%nat then 2
  else if (nat_of_ascii c <? 240)%nat then 3
  else 4.

(** [v[0]]: the first item of a list, the first character of a string; a
    dict with string keys has no key [0]. *)
Definition getitem_0 (v : pyval) : M pyval :=
  match v with
  | PList items =>
      match items with
      | x :: _ => ret x
      | [] => raise IndexError
      end
  | PStr s =>
      match s with
      | String c _ => ret (PStr (substring 0 (utf8_width c) s))
      | EmptyString => raise IndexError
      end
  | PDict _ => raise KeyError
  | _ => raise TypeError
  end.

Fixpoint is_substring (needle hay : string) : bool :=
  if String.prefix needle hay then true
  else match hay with
       | EmptyString => false
       | String _ hay' => is_substring needle hay'
       end.

(** [key in v] for a string key. *)
Definition contains (key : string) (v : pyval) : M bool :=
  match v with
  | PDict bindings =>
      ret (match dict_get key bindings with Some _ => true | None => false end)
  | PList items =>
      ret (existsb (fun x => match x with PStr s => s =? key | _ => false end) items)
  | PStr s => ret (is_substring key s)
  | _ => raise TypeError
  end.

(** [raise_for_status()]: an [HTTPError] for the 4xx and 5xx codes. *)
Definition raise_for_status (r : response) : M unit :=
  if ((400 <=? status_code r) && (status_code r <? 600))%Z
  then raise RequestException
  else ret tt.

(** [response.json()]: the decoded body; or a [JSONDecodeError], which is
    a [RequestException]; or what the decoder of the standard library lets
    through, a plain [ValueError] for an integer beyond the digit limit and a
    [RecursionError] for a nesting too deep. *)
Definition json (r : response) : M pyval :=
  match body r with
  | Some v => ret v
  | None =>
      match why_not r with
      | NotJSON => raise RequestException
      | HugeInteger => raise ValueError
      | TooDeep => raise RecursionError
      end
  end.

(** *** [urllib.parse.quote(string)], with its default [safe='/'] *)

Definition in_range (lo hi : nat) (c : ascii) : bool :=
  ((lo <=? nat_of_ascii c) && (nat_of_ascii c <=? hi))%nat.

(** Letters, digits and [_.-~] are never quoted. *)
Definition always_safe (c : ascii) : bool :=
  in_range 65 90 c || in_range 97 122 c || in_range 48 57 c
  || Ascii.eqb c "_" || Ascii.eqb c "." || Ascii.eqb c "-" || Ascii.eqb c "~".

Definition hex_digit (n : nat) : ascii :=
  nth n (list_ascii_of_string "0123456789ABCDEF") "0"%char.

(** ['%{:02X}'.format(byte)] *)
Definition percent_encode (c : ascii) : string :=
  String "%" (String (hex_digit (nat_of_ascii c / 16))
                (String (hex_digit (nat_of_ascii c mod 16)) "")).

Definition quote_char (c : ascii) : string :=
  if always_safe c || Ascii.eqb c "/" then String c "" else percent_encode c.

Fixpoint quote (s : string) : string :=
  match s with
  | EmptyString => ""
  | String c s' => (quote_char c ++ quote s')%string
  end.

(** *** Reading a text file *)

(** The lines a file object yields when iterated, each with its newline.
    Text mode reads a carriage return, alone or followed by a line feed, as
    the one line feed that ends a line. *)
Fixpoint lines_from (cur text : string) : list string :=
  match text with
  | EmptyString => if cur =? "" then [] else [cur]
  | String c text' =>
      if Ascii.eqb c "010" then
        (cur ++ String "010" "")%string :: lines_from "" text'
      else if Ascii.eqb c "013" then
        match text' with
        | String c' text'' =>
            if Ascii.eqb c' "010"
            then (cur ++ String "010" "")%string :: lines_from "" text''
            else (cur ++ String "010" "")%string :: lines_from "" text'
        | EmptyString => (cur ++ String "010" "")%string :: lines_from "" text'
        end
      else lines_from (cur ++ String c "")%string text'
  end.

Definition readlines (text : string) : list string := lines_from "" text.

(** The white space of [str.strip()].  In one byte: tab, newline, vertical
    tab, form feed, carriage return, the four separators 0x1C to 0x1F, and
    the space. *)
Definition is_space (c : ascii) : bool :=
  in_range 9 13 c || in_range 28 32 c.

Definition byte_is (n : nat) (c : ascii) : bool := (nat_of_ascii c =? n)%nat.

(** In two bytes: U+0085 (C2 85) and U+00A0 (C2 A0). *)
Definition is_space2 (c1 c2 : ascii) : bool :=
  byte_is 194 c1 && (byte_is 133 c2 || byte_is 160 c2).

(** In three bytes: U+1680 (E1 9A 80), U+2000 to U+200A (E2 80 80 to
    E2 80 8A), U+2028, U+2029 and U+202F (E2 80 A8, A9, AF), U+205F
    (E2 81 9F) and U+3000 (E3 80 80). *)
Definition is_space3 (c1 c2 c3 : ascii) : bool :=
  (byte_is 225 c1 && byte_is 154 c2 && byte_is 128 c3)
  || (byte_is 226 c1 && byte_is 128 c2
      && (in_range 128 138 c3 || byte_is 168 c3 || byte_is 169 c3 || byte_is 175 c3))
  || (byte_is 226 c1 && byte_is 129 c2 && byte_is 159 c3)
  || (byte_is 227 c1 && byte_is 128 c2 && byte_is 128 c3).

Fixpoint lstrip (s : string) : string :=
  match s with
  | EmptyString => ""
  | String c1 s1 =>
      if is_space c1 then lstrip s1
      else
        match s1 with
        | EmptyString => s
        | String c2 s2 =>
            if is_space2 c1 c2 then lstrip s2
            else
              match s2 with
              | EmptyString => s
              | String c3 s3 => if is_space3 c1 c2 c3 then lstrip s3 else s
              end
        end
  end.

(** Nothing but white space. *)
Definition blank (s : string) : bool := lstrip s =? "".

(** One white space character, in its one, two or three bytes. *)
Definition space_char (w : string) : bool :=
  match w with
  | String c1 EmptyString => is_space c1
  | String c1 (String c2 EmptyString) => is_space2 c1 c2
  | String c1 (String c2 (String c3 EmptyString)) => is_space3 c1 c2 c3
  | _ => false
  end.

(** [s] begins with a white space character. *)
Definition starts_with_space (s : string) : bool :=
  match s with
  | EmptyString => false
  | String c1 s1 =>
      is_space c1
      || match s1 with
         | EmptyString => false
         | String c2 s2 =>
             is_space2 c1 c2
             || match s2 with
                | EmptyString => false
                | String c3 _ => is_space3 c1 c2 c3
                end
         end
  end.

Fixpoint rstrip (s : string) : string :=
  match s with
  | EmptyString => ""
  | String c s' => if blank s then "" else String c (rstrip s')
  end.

Definition strip (s : string) : string := rstrip (lstrip s).

(** *** [pandas.DataFrame] built from a list of dicts

    One row per dict; the columns are the keys of the dicts, in the order
    of their first appearance.  With no dict at all, and for
    [pd.DataFrame()], there is no row and no column.  A table is kept as
    its columns and the dicts it was built from: how pandas stores the
    entries of a column (a [None] as a missing value, numbers after
    conversion) is not modelled, but for the strings, which it stores as
    they are. *)

Definition dict : Type := list (string * pyval).

Record DataFrame : Type :=
  { columns : list string;
    records : list dict }.

Definition add_column (cols : list string) (k : string) : list string :=
  if existsb (String.eqb k) cols then cols else cols ++ [k].

Definition pd_DataFrame (data : list dict) : DataFrame :=
  {| columns := fold_left (fun cols d => fold_left add_column (map fst d) cols) data [];
     records := data |}.

(** [len(df)] *)
Definition nrows (df : DataFrame) : nat := List.length (records df).

(** [df[col].iloc[i]] where the table holds a string: the entry was given
    as that string.  There is no answer where the table holds something
    else. *)
Definition cell (df : DataFrame) (i : nat) (col : string) : option pyval :=
  match nth_error (records df) i with
  | Some d =>
      match dict_get col d with
      | Some (PStr s) => Some (PStr s)
      | _ => None
      end
  | None => None
  end.

(** ** The program *)

Section Program.

(** Python's [str()], which the f-string applies to [cid]. *)
Variable py_str : pyval -> string.

(** The remote service and the network in front of it: the answer to the
    [n]-th GET of the run (counting from 0) when it asks for [url]. *)
Variable net : nat -> string -> http_result.

(** The file system. *)
Variable fs : string -> open_result.

(** [time.sleep]: what it raises, if anything, when it is called with a
    length at a moment of the run, the moment being the number of requests
    made so far.  It refuses a negative length and a NaN with [ValueError]
    and a length beyond the range of its clock with [OverflowError]; the
    operating system can refuse a deadline for reasons of its own. *)
Variable sleep_raises : nat -> float -> option exn.

(** [time.sleep(secs)] *)
Definition time_sleep (secs : float) : M unit :=
  fun n =>
    match sleep_raises n secs with
    | Some e => (Raise e, [])
    | None => (Return tt, [Sleep secs])
    end.

(** [requests.get(url, timeout=timeout)] *)
Definition requests_get (url : string) (timeout : Z) : M response :=
  fun n =>
    match net n url with
    | NoResponse => (Raise RequestException, [HttpGet url timeout])
    | Responded r => (Return r, [HttpGet url timeout])
    end.

(** [open(filename, 'r')] and the reading of the file, handing over its
    content. *)
Definition open_ (filename : string) : M string :=
  match fs filename with
  | NotFound => raise FileNotFoundError
  | PermissionDenied => raise PermissionError
  | IsADirectory => raise IsADirectoryError
  | Opened text => ret text
  | NotADirectory => raise NotADirectoryError
  | BadName => raise ValueError
  | OtherOSError => raise OSError
  | Undecodable => raise UnicodeDecodeError
  end.

Definition base_url : string :=
  "https://pubchem.ncbi.nlm.nih.gov/rest/pug/compound/name".

Definition cid_url (compound_name : string) : string :=
  (base_url ++ "/" ++ quote compound_name ++ "/cids/JSON")%string.

Definition smiles_url (cid : pyval) : string :=
  ("https://pubchem.ncbi.nlm.nih.gov/rest/pug/compound/cid/" ++ py_str cid
     ++ "/property/CanonicalSMILES/JSON")%string.

(** Lines 27 to 36 of [get_smiles_from_pubchem]: the name is quoted, the
    identifiers are asked for, the first one is taken. *)
Definition get_cid (compound_name : string) : M pyval :=
  let encoded_name := quote compound_name in
  let cid_url := (base_url ++ "/" ++ encoded_name ++ "/cids/JSON")%string in
  response <- requests_get cid_url 10 ;;
  raise_for_status response ;;
  data <- json response ;;
  identifier_list <- getitem_str data "IdentifierList" ;;
  cids <- getitem_str identifier_list "CID" ;;
  getitem_0 cids.

(** Lines 39 to 45: the property is asked for, the first record is taken. *)
Definition get_properties (cid : pyval) : M pyval :=
  response <- requests_get (smiles_url cid) 10 ;;
  raise_for_status response ;;
  smiles_data <- json response ;;
  property_table <- getitem_str smiles_data "PropertyTable" ;;
  property_list <- getitem_str property_table "Properties" ;;
  getitem_0 property_list.

(** Lines 46 to 53: CanonicalSMILES first, ConnectivitySMILES second. *)
Definition pick_smiles (compound_name : string) (properties : pyval) : M pyval :=
  has_canonical <- contains "CanonicalSMILES" properties ;;
  if has_canonical then
    getitem_str properties "CanonicalSMILES"
  else
    has_connectivity <- contains "ConnectivitySMILES" properties ;;
    if has_connectivity then
      getitem_str properties "ConnectivitySMILES"
    else
      print (MsgNoSmiles compound_name) ;;
      ret PNone.

(** [except (requests.exceptions.RequestException, KeyError, IndexError)] *)
Definition lookup_catches (e : exn) : bool :=
  match e with
  | RequestException | KeyError | IndexError => true
  | _ => false
  end.

Definition get_smiles_from_pubchem (compound_name : string) : M pyval :=
  try_except
    (cid <- get_cid compound_name ;;
     properties <- get_properties cid ;;
     pick_smiles compound_name properties)
    lookup_catches
    (fun e =>
       print (MsgError compound_name e) ;;
       ret PNone).

(** The dict appended to [results]. *)
Definition result_row (compound_name : string) (smiles : pyval) : dict :=
  [ ("Compound_Name", PStr compound_name);
    ("SMILES", smiles);
    ("Status", PStr (if py_truthy smiles then "Found" else "Not Found")) ].

(** The [for] loop of [batch_get_smiles]: [i] is the counter of
    [enumerate(compound_names, 1)], [total] is [len(compound_names)],
    [rest] the names still to come. *)
Fixpoint batch_loop (total : nat) (delay : float) (i : nat) (rest : list string)
         (results : list dict) : M (list dict) :=
  match rest with
  | [] => ret results
  | compound_name :: rest' =>
      print (MsgProgress i total compound_name) ;;
      smiles <- get_smiles_from_pubchem compound_name ;;
      let results := results ++ [result_row compound_name smiles] in
      (if (i <? total)%nat then time_sleep delay else ret tt) ;;
      batch_loop total delay (S i) rest' results
  end.

Definition batch_get_smiles (compound_names : list string) (delay : float) : M DataFrame :=
  print (MsgProcessing (List.length compound_names)) ;;
  results <- batch_loop (List.length compound_names) delay 1 compound_names [] ;;
  ret (pd_DataFrame results).

(** The default of the [delay] argument: the binary64 value of [0.2]. *)
Definition default_delay : float := 0x1.999999999999ap-3%float.

Definition file_catches (e : exn) : bool :=
  match e with
  | FileNotFoundError => true
  | _ => false
  end.

Definition process_compounds_from_file (filename : string) : M DataFrame :=
  try_except
    (text <- open_ filename ;;
     let compound_names :=
       map strip (filter (fun line => negb (strip line =? "")) (readlines text)) in
     batch_get_smiles compound_names default_delay)
    file_catches
    (fun _ =>
       print (MsgFileNotFound filename) ;;
       ret (pd_DataFrame [])).

End Program.

(** ** Running the model *)

(** What CPython 3.11 decides from the length alone when [time.sleep] is
    called: a NaN is refused with [ValueError]; the length is taken to
    nanoseconds, and refused with [OverflowError] outside the range of a
    64-bit integer; a negative length, and the one whose nanoseconds are
    exactly 2^63 and wrap, are refused with [ValueError]. *)

Definition cpython_sleep_raises (n : nat) (secs : float) : option exn :=
  let ns := PrimFloat.mul secs 1e9%float in
  if negb (PrimFloat.eqb secs secs) then Some ValueError
  else if PrimFloat.ltb ns (-0x1p63)%float || PrimFloat.ltb 0x1p63%float ns
  then Some OverflowError
  else if PrimFloat.ltb secs PrimFloat.zero || PrimFloat.eqb ns 0x1p63%float
  then Some ValueError
  else None.

(** [str()] on the values whose text the examples below need: integers in
    decimal, strings as they are, [None], [True] and [False].  No example
    formats a value of another kind. *)

Definition str_scalar (v : pyval) : string :=
  match v with
  | PInt z => NilZero.string_of_int (Z.to_int z)
  | PStr s => s
  | PNone => "None"
  | PBool true => "True"
  | PBool false => "False"
  | _ => ""
  end.

(** A service that knows one compound: it answers the lookup of its name
    with its identifier, the lookup of that identifier with one property
    record, and every other request with 404 and a fault. *)
Definition one_compound_net (compound_name : string) (cid : Z) (record : dict)
  (n : nat) (url : string) : http_result :=
  if url =? cid_url compound_name then
    Responded (Response 200
      (Some (PDict [("IdentifierList", PDict [("CID", PList [PInt cid])])])))
  else if url =? smiles_url str_scalar (PInt cid) then
    Responded (Response 200
      (Some (PDict [("PropertyTable", PDict [("Properties", PList [PDict record])])])))
  else
    Responded (Response 404
      (Some (PDict [("Fault", PDict [("Code", PStr "PUGREST.NotFound")])]))).

(** The service of the end-to-end scenario. *)
Definition mesitylene_net : nat -> string -> http_result :=
  one_compound_net "mesitylene" 7583
    [("CID", PInt 7583); ("CanonicalSMILES", PStr "CC1=CC(=CC(=C1)C)C")].


(** A service whose record holds a list in place of the SMILES string. *)
Definition list_smiles_net : nat -> string -> http_result :=
  one_compound_net "ethanol" 702
    [("CID", PInt 702); ("CanonicalSMILES", PList [PStr "CCO"])].

(** A service that answers every request with status 200 and an identifier
    list whose CID is a number instead of a list of numbers. *)
Definition scalar_cid_net (n : nat) (url : string) : http_result :=
  Responded (Response 200
    (Some (PDict [("IdentifierList", PDict [("CID", PInt 2244)])]))).

Definition no_files (filename : string) : open_result := NotFound.


Definition locked_files (filename : string) : open_result := PermissionDenied.

(** ** Vocabulary of the properties *)

(** Every exception that [m] lets out satisfies [P]. *)
Definition raises_only {A} (P : exn -> Prop) (m : M A) : Prop :=
  forall n e, fst (m n) = Raise e -> P e.

(** Every event that [m] emits satisfies [Q]. *)
Definition emits_only {A} (Q : event -> Prop) (m : M A) : Prop :=
  forall n, Forall Q (snd (m n)).

Definition is_sleep (ev : event) : bool :=
  match ev with
  | Sleep _ => true
  | _ => false
  end.

(** The URLs asked for, in order. *)
Fixpoint http_requests (evs : list event) : list string :=
  match evs with
  | [] => []
  | HttpGet url _ :: evs' => url :: http_requests evs'
  | _ :: evs' => http_requests evs'
  end.

(** [sep.join(segs)] on lists. *)
Fixpoint intercalate {A} (sep : list A) (segs : list (list A)) : list A :=
  match segs with
  | [] => []
  | seg :: segs' =>
      match segs' with
      | [] => seg
      | _ :: _ => seg ++ sep ++ intercalate sep segs'
      end
  end.

(** The events of one turn of the loop of [batch_get_smiles]: the progress
    line of a name, then the events of its lookup, none of them a sleep. *)
Definition resolution_of (total : nat) (compound_name : string) (seg : list event) : Prop :=
  exists i lookup,
    seg = Print (MsgProgress i total compound_name) :: lookup
    /\ Forall (fun ev => is_sleep ev = false) lookup.

(** The value the code picks from a property record. *)
Definition picked (properties : dict) : option pyval :=
  match dict_get "CanonicalSMILES" properties with
  | Some v => Some v
  | None => dict_get "ConnectivitySMILES" properties
  end.

(** [m] emits nothing. *)
Definition silent {A} (m : M A) : Prop := forall n, snd (m n) = [].

(** The exceptions that can arise inside the [try] of
    [get_smiles_from_pubchem]. *)
Definition lookup_failure (e : exn) : Prop :=
  e = RequestException \/ e = KeyError \/ e = IndexError \/ e = TypeError
  \/ e = ValueError \/ e = RecursionError.

(** The exceptions of a lookup that its [except] clause does not name. *)
Definition lookup_escape (e : exn) : Prop :=
  e = TypeError \/ e = ValueError \/ e = RecursionError.

(** The lengths slept, in order. *)
Fixpoint sleeps (evs : list event) : list float :=
  match evs with
  | [] => []
  | Sleep secs :: evs' => secs :: sleeps evs'
  | _ :: evs' => sleeps evs'
  end.

Definition newline : string := String "010" "".

(** A file of three lines, all of them blank. *)
Definition blank_file (filename : string) : open_result :=
  Opened (newline ++ "  " ++ newline ++ String "009" newline)%string.

(** A non-empty string or [None]. *)
Definition nonempty_str_or_None (v : pyval) : Prop :=
  v = PNone \/ exists s, v = PStr s /\ s <> "".

(** The characters of a string. *)
Definition chars (s : string) : list ascii := list_ascii_of_string s.

(** ** Vocabulary of further properties *)

(** The requests made, each with its timeout, in order. *)
Fixpoint gets (evs : list event) : list (string * Z) :=
  match evs with
  | [] => []
  | HttpGet url timeout :: evs' => (url, timeout) :: gets evs'
  | _ :: evs' => gets evs'
  end.

(** The messages printed, in order. *)
Fixpoint printed (evs : list event) : list message :=
  match evs with
  | [] => []
  | Print m :: evs' => m :: printed evs'
  | _ :: evs' => printed evs'
  end.

(** A response that [raise_for_status] lets through. *)
Definition status_accepted (r : response) : Prop :=
  ((400 <=? status_code r) && (status_code r <? 600))%Z = false.

(** An answer to the identifier request of the documented shape,
    [{"IdentifierList": {"CID": [cid, ...]}}], other keys allowed. *)
Definition identifier_response (r : response) (cid : pyval) : Prop :=
  status_accepted r
  /\ exists top inner others,
      body r = Some (PDict top)
      /\ dict_get "IdentifierList" top = Some (PDict inner)
      /\ dict_get "CID" inner = Some (PList (cid :: others)).

(** An answer to the property request of the documented shape,
    [{"PropertyTable": {"Properties": [record, ...]}}], other keys allowed. *)
Definition property_response (r : response) (record : dict) : Prop :=
  status_accepted r
  /\ exists top table others,
      body r = Some (PDict top)
      /\ dict_get "PropertyTable" top = Some (PDict table)
      /\ dict_get "Properties" table = Some (PList (PDict record :: others)).

(** A service that answers the identifier request for mesitylene with the
    status 300 and the identifier list for body, and every other request as
    [mesitylene_net] does.  (A 300 carries no Location header that
    [requests] would follow, and its body is read as it is.) *)
Definition multiple_choices_net (n : nat) (url : string) : http_result :=
  if url =? cid_url "mesitylene" then
    Responded (Response 300
      (Some (PDict [("IdentifierList", PDict [("CID", PList [PInt 7583])])])))
  else mesitylene_net n url.

(** A decoded body from which [data['IdentifierList']['CID'][0]] cannot be
    taken: the key IdentifierList is absent, or the key CID is, or the list
    under CID is empty. *)
Definition no_first_identifier (data : pyval) : Prop :=
  exists top,
    data = PDict top
    /\ (dict_get "IdentifierList" top = None
        \/ exists inner,
            dict_get "IdentifierList" top = Some (PDict inner)
            /\ (dict_get "CID" inner = None \/ dict_get "CID" inner = Some (PList []))).

(** The ways in which the identifier lookup for [compound_name], made at
    moment [n], fails: no response (connection error, timeout), a response
    with a 4xx or 5xx status, a body that does not decode, or a decoded body
    without a first identifier. *)
Definition identifier_lookup_fails (net : nat -> string -> http_result)
  (compound_name : string) (n : nat) : Prop :=
  net n (cid_url compound_name) = NoResponse
  \/ exists r,
      net n (cid_url compound_name) = Responded r
      /\ ((400 <= status_code r < 600)%Z
          \/ body r = None
          \/ exists data, body r = Some data /\ no_first_identifier data).

(** A network on which no request gets a response. *)
Definition dead_net (n : nat) (url : string) : http_result := NoResponse.

(** A service that answers every request with an empty list of
    identifiers. *)
Definition empty_cid_net (n : nat) (url : string) : http_result :=
  Responded (Response 200
    (Some (PDict [("IdentifierList", PDict [("CID", PList [])])]))).

(** The progress lines among the events, in order. *)
Fixpoint progress_lines (evs : list event) : list message :=
  match evs with
  | [] => []
  | Print (MsgProgress i total compound_name) :: evs' =>
      MsgProgress i total compound_name :: progress_lines evs'
  | _ :: evs' => progress_lines evs'
  end.

(** The progress lines of the names [names], numbered from [i]. *)
Fixpoint progress_from (total i : nat) (names : list string) : list message :=
  match names with
  | [] => []
  | compound_name :: names' =>
      MsgProgress i total compound_name :: progress_from total (S i) names'
  end.

(** The events but for the sleeps. *)
Definition without_sleeps (evs : list event) : list event :=
  filter (fun ev => negb (is_sleep ev)) evs.

(** [m] does not depend on the moment at which it starts. *)
Definition timeless {A} (m : M A) : Prop := forall n, m n = m 0.

(** No request gets through: each one ends without a response or with a
    4xx or 5xx status. *)
Definition unreachable (net : nat -> string -> http_result) : Prop :=
  forall n url,
    net n url = NoResponse
    \/ exists r, net n url = Responded r /\ (400 <= status_code r < 600)%Z.

(** The list comprehension of [process_compounds_from_file]:
    [[line.strip() for line in f if line.strip()]]. *)
Definition names_of_text (text : string) : list string :=
  map strip (filter (fun line => negb (strip line =? "")) (readlines text)).

Definition first_char (s : string) : option ascii :=
  match s with
  | EmptyString => None
  | String c _ => Some c
  end.

Fixpoint last_char (s : string) : option ascii :=
  match s with
  | EmptyString => None
  | String c s' =>
      match s' with
      | EmptyString => Some c
      | String _ _ => last_char s'
      end
  end.

(** A text file with one name per line. *)
Fixpoint unlines (names : list string) : string :=
  match names with
  | [] => ""
  | name :: names' => (name ++ newline ++ unlines names')%string
  end.

(** A name that survives a line of a file as it is: not empty, no white
    space at either end, no line feed and no carriage return inside. *)
Definition plain_name (name : string) : Prop :=
  name <> "" /\ strip name = name
  /\ ~ In "010"%char (chars name) /\ ~ In "013"%char (chars name).

Definition file_with (text : string) (filename : string) : open_result := Opened text.

(** The characters that [quote] replaces. *)
Definition needs_quoting (c : ascii) : bool :=
  negb (always_safe c || Ascii.eqb c "/").

(** The value of a hexadecimal digit, upper case. *)
Definition hex_value (c : ascii) : nat :=
  if in_range 48 57 c then nat_of_ascii c - 48 else nat_of_ascii c - 55.

(** *** The summary of the main block

    [found_count = len(results_df[results_df['Status'] == 'Found'])] and
    [total_count = len(results_df)].  Selecting the column raises [KeyError]
    when the table has no such column; the comparison is made cell by
    cell. *)

Definition is_found (d : dict) : bool :=
  match dict_get "Status" d with
  | Some (PStr s) => s =? "Found"
  | _ => false
  end.

Definition found_count (results_df : DataFrame) : outcome nat :=
  if existsb (String.eqb "Status") (columns results_df)
  then Return (List.length (filter is_found (records results_df)))
  else Raise KeyError.

Definition total_count (results_df : DataFrame) : nat := nrows results_df.

(** ** Laws of the effect monad *)

Lemma bind_Return {A B} (m : M A) (k : A -> M B) n a evs :
  m n = (Return a, evs) ->
  bind m k n = (fst (k a (n + requests_in evs)), evs ++ snd (k a (n + requests_in evs))).
Proof.
  intros H. unfold bind. rewrite H. now destruct (k a (n + requests_in evs)).
Qed.

Lemma bind_Raise {A B} (m : M A) (k : A -> M B) n e evs :
  m n = (Raise e, evs) -> bind m k n = (Raise e, evs).
Proof. intros H. unfold bind. now rewrite H. Qed.

(** *** Which exceptions come out *)

Lemma raises_only_ret {A} P (a : A) : raises_only P (ret a).
Proof. intros n e [=]. Qed.

Lemma raises_only_raise {A} (P : exn -> Prop) e : P e -> raises_only P (@raise A e).
Proof. intros H n e' [= <-]. exact H. Qed.

Lemma raises_only_emit P ev : raises_only P (emit ev).
Proof. intros n e [=]. Qed.

Lemma raises_only_weaken {A} (P Q : exn -> Prop) (m : M A) :
  (forall e, P e -> Q e) -> raises_only P m -> raises_only Q m.
Proof. intros HPQ Hm n e H. apply HPQ. exact (Hm n e H). Qed.

Lemma raises_only_bind {A B} P (m : M A) (k : A -> M B) :
  raises_only P m -> (forall a, raises_only P (k a)) -> raises_only P (bind m k).
Proof.
  intros Hm Hk n e. unfold bind.
  destruct (m n) as [[a | e'] evs] eqn:Hrun.
  - specialize (Hk a (n + requests_in evs) e).
    destruct (k a (n + requests_in evs)). exact Hk.
  - intros [= <-]. apply (Hm n). now rewrite Hrun.
Qed.

Lemma raises_only_try {A} (P Q : exn -> Prop) (m : M A) catches handler :
  raises_only P m ->
  (forall e, P e -> catches e = false -> Q e) ->
  (forall e, raises_only Q (handler e)) ->
  raises_only Q (try_except m catches handler).
Proof.
  intros Hm Hc Hh n e. unfold try_except.
  destruct (m n) as [[a | e'] evs] eqn:Hrun.
  - intros [=].
  - destruct (catches e') eqn:Hcatch.
    + specialize (Hh e' (n + requests_in evs) e).
      destruct (handler e' (n + requests_in evs)). exact Hh.
    + intros [= <-]. apply Hc; [ | exact Hcatch ].
      apply (Hm n). now rewrite Hrun.
Qed.

(** *** Which events are emitted *)

Lemma emits_only_ret {A} Q (a : A) : emits_only Q (ret a).
Proof. intros n. constructor. Qed.

Lemma emits_only_raise {A} Q e : emits_only Q (@raise A e).
Proof. intros n. constructor. Qed.

Lemma emits_only_emit (Q : event -> Prop) ev : Q ev -> emits_only Q (emit ev).
Proof. intros H n. repeat constructor. exact H. Qed.

Lemma emits_only_bind {A B} Q (m : M A) (k : A -> M B) :
  emits_only Q m -> (forall a, emits_only Q (k a)) -> emits_only Q (bind m k).
Proof.
  intros Hm Hk n. unfold bind. specialize (Hm n).
  destruct (m n) as [[a | e] evs]; [ | exact Hm ].
  specialize (Hk a (n + requests_in evs)).
  destruct (k a (n + requests_in evs)). cbn in *.
  apply Forall_app. now split.
Qed.

Lemma emits_only_try {A} Q (m : M A) catches handler :
  emits_only Q m -> (forall e, emits_only Q (handler e)) ->
  emits_only Q (try_except m catches handler).
Proof.
  intros Hm Hh n. unfold try_except. specialize (Hm n).
  destruct (m n) as [[a | e] evs]; [ exact Hm | ].
  destruct (catches e); [ | exact Hm ].
  specialize (Hh e (n + requests_in evs)).
  destruct (handler e (n + requests_in evs)). cbn in *.
  apply Forall_app. now split.
Qed.

(** *** The built-ins: they emit nothing, and what they raise *)

Lemma getitem_str_run v key n :
  getitem_str v key n =
  (match v with
   | PDict bindings =>
       match dict_get key bindings with
       | Some x => Return x
       | None => Raise KeyError
       end
   | _ => Raise TypeError
   end, []).
Proof. destruct v; try reflexivity. cbn. now destruct (dict_get key bindings). Qed.

Lemma getitem_0_silent v n : snd (getitem_0 v n) = [].
Proof. destruct v as [ | | | | [ | ] | [ | ] | ]; reflexivity. Qed.

Lemma contains_silent key v n : snd (contains key v n) = [].
Proof. destruct v; reflexivity. Qed.

Lemma raise_for_status_silent r n : snd (raise_for_status r n) = [].
Proof. unfold raise_for_status. now destruct (_ && _). Qed.

Lemma json_silent r n : snd (json r n) = [].
Proof. unfold json. destruct (body r); [ | destruct (why_not r) ]; reflexivity. Qed.

Lemma silent_ret {A} (a : A) : silent (ret a).
Proof. intros n. reflexivity. Qed.

Lemma silent_raise {A} e : silent (@raise A e).
Proof. intros n. reflexivity. Qed.

Lemma silent_bind {A B} (m : M A) (k : A -> M B) :
  silent m -> (forall a, silent (k a)) -> silent (bind m k).
Proof.
  intros Hm Hk n. unfold bind. specialize (Hm n).
  destruct (m n) as [[a | e] evs]; cbn in *; subst; [ | reflexivity ].
  specialize (Hk a (n + requests_in [])).
  destruct (k a (n + requests_in [])). cbn in *. now subst.
Qed.

Lemma snd_bind_silent {A B} (m : M A) (k : A -> M B) n :
  (forall a, silent (k a)) -> snd (bind m k n) = snd (m n).
Proof.
  intros Hk. unfold bind.
  destruct (m n) as [[a | e] evs]; [ | reflexivity ].
  specialize (Hk a (n + requests_in evs)).
  destruct (k a (n + requests_in evs)). cbn in *. subst. apply app_nil_r.
Qed.

Lemma silent_getitem_str v key : silent (getitem_str v key).
Proof. intros n. now rewrite getitem_str_run. Qed.

Lemma silent_getitem_0 v : silent (getitem_0 v).
Proof. intros n. apply getitem_0_silent. Qed.

Lemma silent_contains key v : silent (contains key v).
Proof. intros n. apply contains_silent. Qed.

Lemma silent_raise_for_status r : silent (raise_for_status r).
Proof. intros n. apply raise_for_status_silent. Qed.

Lemma silent_json r : silent (json r).
Proof. intros n. apply json_silent. Qed.

Create HintDb effects.

#[local] Hint Resolve silent_ret silent_raise silent_getitem_str silent_getitem_0
  silent_contains silent_raise_for_status silent_json : effects.

Lemma lookup_failure_getitem_str v key : raises_only lookup_failure (getitem_str v key).
Proof.
  intros n e. rewrite getitem_str_run. unfold lookup_failure.
  destruct v; cbn; try (intros [= <-]; tauto).
  destruct (dict_get key bindings); intros [= <-]; tauto.
Qed.

Lemma lookup_failure_getitem_0 v : raises_only lookup_failure (getitem_0 v).
Proof.
  intros n e. unfold lookup_failure.
  destruct v as [ | | | | [ | ] | [ | ] | ]; cbn; intros [= <-]; tauto.
Qed.

Lemma lookup_failure_contains key v : raises_only lookup_failure (contains key v).
Proof.
  intros n e. unfold lookup_failure.
  destruct v; cbn; intros [= <-]; tauto.
Qed.

Lemma lookup_failure_raise_for_status r : raises_only lookup_failure (raise_for_status r).
Proof.
  intros n e. unfold raise_for_status, lookup_failure.
  destruct (_ && _); cbn; intros [= <-]; tauto.
Qed.

Lemma lookup_failure_json r : raises_only lookup_failure (json r).
Proof.
  intros n e. unfold json, lookup_failure.
  destruct (body r); [ | destruct (why_not r) ]; cbn; intros [= <-]; tauto.
Qed.

#[local] Hint Resolve lookup_failure_getitem_str lookup_failure_getitem_0
  lookup_failure_contains lookup_failure_raise_for_status lookup_failure_json : effects.

(** ** The lookup of one compound *)

Section Lookup.

Variable py_str : pyval -> string.
Variable net : nat -> string -> http_result.

Lemma requests_get_run url timeout n :
  requests_get net url timeout n =
  (match net n url with
   | NoResponse => Raise RequestException
   | Responded r => Return r
   end, [HttpGet url timeout]).
Proof. unfold requests_get. now destruct (net n url). Qed.

Lemma lookup_failure_requests_get url timeout :
  raises_only lookup_failure (requests_get net url timeout).
Proof.
  intros n e. rewrite requests_get_run. unfold lookup_failure.
  destruct (net n url); cbn; intros [= <-]. tauto.
Qed.

(** The identifier step issues one request, whatever comes of it. *)
Lemma get_cid_events compound_name n :
  snd (get_cid net compound_name n) = [HttpGet (cid_url compound_name) 10].
Proof.
  unfold get_cid. rewrite snd_bind_silent.
  - now rewrite requests_get_run.
  - intros r. repeat (apply silent_bind; [ | intros ? ]); auto with effects.
Qed.

Lemma get_properties_events cid n :
  snd (get_properties py_str net cid n) = [HttpGet (smiles_url py_str cid) 10].
Proof.
  unfold get_properties. rewrite snd_bind_silent.
  - now rewrite requests_get_run.
  - intros r. repeat (apply silent_bind; [ | intros ? ]); auto with effects.
Qed.

Lemma lookup_failure_get_cid compound_name :
  raises_only lookup_failure (get_cid net compound_name).
Proof.
  unfold get_cid.
  repeat (apply raises_only_bind; [ | intros ? ]);
    auto using lookup_failure_requests_get with effects.
Qed.

Lemma lookup_failure_get_properties cid :
  raises_only lookup_failure (get_properties py_str net cid).
Proof.
  unfold get_properties.
  repeat (apply raises_only_bind; [ | intros ? ]);
    auto using lookup_failure_requests_get with effects.
Qed.

(** What the choice among the fields comes to, case by case. *)
Lemma pick_smiles_dict compound_name properties n :
  pick_smiles compound_name (PDict properties) n =
  match picked properties with
  | Some v => (Return v, [])
  | None => (Return PNone, [Print (MsgNoSmiles compound_name)])
  end.
Proof.
  unfold pick_smiles, picked, bind, contains, getitem_str, ret. cbn.
  destruct (dict_get "CanonicalSMILES" properties) as [v | ] eqn:Hcan; cbn.
  - reflexivity.
  - destruct (dict_get "ConnectivitySMILES" properties) as [v | ] eqn:Hcon; cbn.
    + reflexivity.
    + reflexivity.
Qed.


Lemma lookup_failure_pick_smiles compound_name properties :
  raises_only lookup_failure (pick_smiles compound_name properties).
Proof.
  unfold pick_smiles.
  apply raises_only_bind; [ auto with effects | intros [ | ] ]; [ auto with effects | ].
  apply raises_only_bind; [ auto with effects | intros [ | ] ]; [ auto with effects | ].
  apply raises_only_bind; [ apply raises_only_emit | intros _; apply raises_only_ret ].
Qed.

(** What gets past the [except] clause: a [TypeError], and the
    [ValueError] and the [RecursionError] of [response.json()]. *)
Lemma get_smiles_raises_only_escapes compound_name :
  raises_only lookup_escape
    (get_smiles_from_pubchem py_str net compound_name).
Proof.
  unfold get_smiles_from_pubchem.
  apply raises_only_try with (P := lookup_failure).
  - apply raises_only_bind; [ apply lookup_failure_get_cid | intros cid ].
    apply raises_only_bind; [ apply lookup_failure_get_properties | intros p ].
    apply lookup_failure_pick_smiles.
  - unfold lookup_escape.
    intros e [-> | [-> | [-> | [-> | [-> | ->]]]]]; cbn; intros H;
      try discriminate H; tauto.
  - intros e. apply raises_only_bind; [ apply raises_only_emit | intros _; apply raises_only_ret ].
Qed.

Lemma get_cid_run compound_name n :
  get_cid net compound_name n =
  (fst (get_cid net compound_name n), [HttpGet (cid_url compound_name) 10]).
Proof. rewrite <- (get_cid_events compound_name n). apply surjective_pairing. Qed.

Lemma get_properties_run cid n :
  get_properties py_str net cid n =
  (fst (get_properties py_str net cid n), [HttpGet (smiles_url py_str cid) 10]).
Proof. rewrite <- (get_properties_events cid n). apply surjective_pairing. Qed.

(** The lookup when its first step fails. *)
Lemma get_smiles_cid_fails compound_name n e :
  fst (get_cid net compound_name n) = Raise e ->
  get_smiles_from_pubchem py_str net compound_name n =
  if lookup_catches e
  then (Return PNone,
        [HttpGet (cid_url compound_name) 10; Print (MsgError compound_name e)])
  else (Raise e, [HttpGet (cid_url compound_name) 10]).
Proof.
  intros H. unfold get_smiles_from_pubchem, try_except.
  rewrite (bind_Raise _ _ n e [HttpGet (cid_url compound_name) 10])
    by (rewrite get_cid_run, H; reflexivity).
  now destruct (lookup_catches e).
Qed.

(** The lookup when its second step fails. *)
Lemma get_smiles_properties_fail compound_name n cid e :
  fst (get_cid net compound_name n) = Return cid ->
  fst (get_properties py_str net cid (n + 1)) = Raise e ->
  get_smiles_from_pubchem py_str net compound_name n =
  if lookup_catches e
  then (Return PNone,
        [HttpGet (cid_url compound_name) 10; HttpGet (smiles_url py_str cid) 10;
         Print (MsgError compound_name e)])
  else (Raise e,
        [HttpGet (cid_url compound_name) 10; HttpGet (smiles_url py_str cid) 10]).
Proof.
  intros Hcid Hprop. unfold get_smiles_from_pubchem, try_except.
  rewrite (bind_Return _ _ n cid [HttpGet (cid_url compound_name) 10])
    by (rewrite get_cid_run, Hcid; reflexivity).
  change (n + requests_in [HttpGet (cid_url compound_name) 10]) with (n + 1).
  rewrite (bind_Raise _ _ (n + 1) e [HttpGet (smiles_url py_str cid) 10])
    by (rewrite get_properties_run, Hprop; reflexivity).
  cbn. now destruct (lookup_catches e).
Qed.

(** The lookup when both requests deliver: the record decides. *)
Lemma get_smiles_picks compound_name n cid properties :
  fst (get_cid net compound_name n) = Return cid ->
  fst (get_properties py_str net cid (n + 1)) = Return properties ->
  get_smiles_from_pubchem py_str net compound_name n =
  match pick_smiles compound_name properties (n + 2) with
  | (Return v, evs) =>
      (Return v,
       [HttpGet (cid_url compound_name) 10; HttpGet (smiles_url py_str cid) 10] ++ evs)
  | (Raise e, evs) =>
      if lookup_catches e
      then (Return PNone,
            ([HttpGet (cid_url compound_name) 10; HttpGet (smiles_url py_str cid) 10]
               ++ evs) ++ [Print (MsgError compound_name e)])
      else (Raise e,
            [HttpGet (cid_url compound_name) 10; HttpGet (smiles_url py_str cid) 10]
              ++ evs)
  end.
Proof.
  intros Hcid Hprop. unfold get_smiles_from_pubchem, try_except.
  rewrite (bind_Return _ _ n cid [HttpGet (cid_url compound_name) 10])
    by (rewrite get_cid_run, Hcid; reflexivity).
  change (n + requests_in [HttpGet (cid_url compound_name) 10]) with (n + 1).
  rewrite (bind_Return _ _ (n + 1) properties [HttpGet (smiles_url py_str cid) 10])
    by (rewrite get_properties_run, Hprop; reflexivity).
  change (n + 1 + requests_in [HttpGet (smiles_url py_str cid) 10]) with (n + 1 + 1).
  replace (n + 1 + 1) with (n + 2) by lia.
  destruct (pick_smiles compound_name properties (n + 2)) as [[v | e] evs]; cbn.
  - reflexivity.
  - now destruct (lookup_catches e).
Qed.

End Lookup.

(** ** The batch loop *)

Lemma silent_emits_only {A} Q (m : M A) : silent m -> emits_only Q m.
Proof. intros H n. rewrite H. constructor. Qed.

Lemma bind_print {B} msg (k : unit -> M B) n :
  bind (print msg) k n = (fst (k tt n), Print msg :: snd (k tt n)).
Proof.
  unfold bind, print, emit. cbn. rewrite Nat.add_0_r. now destruct (k tt n).
Qed.

Lemma intercalate_cons {A} (sep seg : list A) segs :
  segs <> [] -> intercalate sep (seg :: segs) = seg ++ sep ++ intercalate sep segs.
Proof. destruct segs; [ congruence | reflexivity ]. Qed.

Section Batch.

Variable py_str : pyval -> string.
Variable net : nat -> string -> http_result.
Variable sleep_raises : nat -> float -> option exn.

Lemma time_sleep_run secs n :
  time_sleep sleep_raises secs n =
  match sleep_raises n secs with
  | Some e => (Raise e, [])
  | None => (Return tt, [Sleep secs])
  end.
Proof. reflexivity. Qed.

(** A lookup never sleeps. *)
Lemma get_smiles_never_sleeps compound_name :
  emits_only (fun ev => is_sleep ev = false)
    (get_smiles_from_pubchem py_str net compound_name).
Proof.
  unfold get_smiles_from_pubchem.
  apply emits_only_try.
  - apply emits_only_bind.
    { intros n. rewrite get_cid_events. now repeat constructor. }
    intros cid. apply emits_only_bind.
    { intros n. rewrite get_properties_events. now repeat constructor. }
    intros properties. unfold pick_smiles.
    apply emits_only_bind; [ apply silent_emits_only; auto with effects | intros [ | ] ].
    { apply silent_emits_only; auto with effects. }
    apply emits_only_bind; [ apply silent_emits_only; auto with effects | intros [ | ] ].
    { apply silent_emits_only; auto with effects. }
    apply emits_only_bind; [ now apply emits_only_emit | intros _; apply emits_only_ret ].
  - intros e. apply emits_only_bind; [ now apply emits_only_emit | intros _; apply emits_only_ret ].
Qed.

(** One turn of the loop, spelled out. *)
Lemma batch_loop_cons total delay i compound_name rest results n :
  batch_loop py_str net sleep_raises total delay i (compound_name :: rest) results n =
  match get_smiles_from_pubchem py_str net compound_name n with
  | (Raise e, evs) => (Raise e, Print (MsgProgress i total compound_name) :: evs)
  | (Return smiles, evs) =>
      if (i <? total)%nat then
        match sleep_raises (n + requests_in evs) delay with
        | Some e => (Raise e, Print (MsgProgress i total compound_name) :: evs)
        | None =>
          (fst (batch_loop py_str net sleep_raises total delay (S i) rest
                  (results ++ [result_row compound_name smiles]) (n + requests_in evs)),
           Print (MsgProgress i total compound_name) :: evs ++ Sleep delay ::
             snd (batch_loop py_str net sleep_raises total delay (S i) rest
                    (results ++ [result_row compound_name smiles]) (n + requests_in evs)))
        end
      else
        (fst (batch_loop py_str net sleep_raises total delay (S i) rest
                (results ++ [result_row compound_name smiles]) (n + requests_in evs)),
         Print (MsgProgress i total compound_name) :: evs ++
           snd (batch_loop py_str net sleep_raises total delay (S i) rest
                  (results ++ [result_row compound_name smiles]) (n + requests_in evs)))
  end.
Proof.
  cbn [batch_loop]. rewrite bind_print.
  destruct (get_smiles_from_pubchem py_str net compound_name n) as [[smiles | e] evs] eqn:Hrun.
  - rewrite (bind_Return _ _ _ _ _ Hrun). cbn [fst snd].
    destruct (i <? total)%nat.
    + unfold bind at 1 2. rewrite time_sleep_run.
      destruct (sleep_raises (n + requests_in evs) delay).
      * cbn. now rewrite app_nil_r.
      * cbn [requests_in filter List.length]. rewrite Nat.add_0_r.
        destruct (batch_loop _ _ _ _ _ _ _ _). reflexivity.
    + unfold bind at 1 2. cbn. rewrite Nat.add_0_r.
      destruct (batch_loop _ _ _ _ _ _ _ _). reflexivity.
  - rewrite (bind_Raise _ _ _ _ _ Hrun). reflexivity.
Qed.

(** The rows the loop adds: one per name, in order, each built from what
    a lookup of that name returned. *)
Lemma batch_loop_rows rest : forall total delay i results n rs,
  fst (batch_loop py_str net sleep_raises total delay i rest results n) = Return rs ->
  exists rows,
    rs = results ++ rows
    /\ Forall2 (fun compound_name row =>
                  exists smiles n',
                    fst (get_smiles_from_pubchem py_str net compound_name n') = Return smiles
                    /\ row = result_row compound_name smiles)
               rest rows.
Proof.
  induction rest as [ | compound_name rest' IH ]; intros total delay i results n rs.
  - cbn. intros [= <-]. exists []. split; [ now rewrite app_nil_r | constructor ].
  - rewrite batch_loop_cons.
    destruct (get_smiles_from_pubchem py_str net compound_name n)
      as [[smiles | e] evs] eqn:Hrun; [ | discriminate ].
    assert (Hrow : exists smiles' n',
               fst (get_smiles_from_pubchem py_str net compound_name n') = Return smiles'
               /\ result_row compound_name smiles = result_row compound_name smiles').
    { exists smiles, n. now rewrite Hrun. }
    destruct (i <? total)%nat;
      [ destruct (sleep_raises (n + requests_in evs) delay); [ discriminate | ] | ];
      cbn [fst]; intros H; apply IH in H; destruct H as (rows & -> & Hrows);
      exists (result_row compound_name smiles :: rows);
      (split; [ now rewrite <- app_assoc | now constructor ]).
Qed.

(** The events of the loop: the resolutions of the names it got to, with
    one sleep between two of them and none after the last. *)
Lemma batch_loop_trace rest : forall compound_name total delay i results n,
  i + List.length rest = total ->
  exists segs,
    snd (batch_loop py_str net sleep_raises total delay i (compound_name :: rest) results n)
    = intercalate [Sleep delay] segs
    /\ Forall2 (resolution_of total)
               (firstn (List.length segs) (compound_name :: rest)) segs
    /\ segs <> []
    /\ (forall rs,
          fst (batch_loop py_str net sleep_raises total delay i (compound_name :: rest) results n)
          = Return rs ->
          List.length segs = S (List.length rest)).
Proof.
  induction rest as [ | next rest' IH ]; intros compound_name total delay i results n Hlen;
    rewrite batch_loop_cons;
    pose proof (get_smiles_never_sleeps compound_name n) as Hquiet;
    destruct (get_smiles_from_pubchem py_str net compound_name n)
      as [[smiles | e] evs] eqn:Hrun; cbn [snd] in Hquiet;
    assert (Hseg : resolution_of total compound_name
                     (Print (MsgProgress i total compound_name) :: evs))
      by (now exists i, evs).
  - (* the last name, looked up *)
    cbn in Hlen. rewrite Nat.add_0_r in Hlen. subst total. rewrite Nat.ltb_irrefl. cbn.
    exists [Print (MsgProgress i i compound_name) :: evs].
    rewrite app_nil_r. cbn. split; [ reflexivity | ].
    split; [ constructor; [ exact Hseg | constructor ] | ].
    split; [ congruence | reflexivity ].
  - (* the last name, the lookup raising *)
    exists [Print (MsgProgress i total compound_name) :: evs].
    cbn. split; [ reflexivity | ].
    split; [ constructor; [ exact Hseg | constructor ] | ].
    split; [ congruence | discriminate ].
  - (* a name with successors, looked up *)
    cbn [List.length] in Hlen.
    assert (Hlt : (i <? total)%nat = true) by (apply Nat.ltb_lt; lia).
    rewrite Hlt.
    destruct (sleep_raises (n + requests_in evs) delay).
    + exists [Print (MsgProgress i total compound_name) :: evs].
      cbn. split; [ reflexivity | ].
      split; [ constructor; [ exact Hseg | constructor ] | ].
      split; [ congruence | discriminate ].
    + destruct (IH next total delay (S i)
                  (results ++ [result_row compound_name smiles]) (n + requests_in evs))
        as (segs & Htrace & Hsegs & Hne & Hall); [ lia | ].
      exists ((Print (MsgProgress i total compound_name) :: evs) :: segs).
      cbn [fst snd]. rewrite Htrace, intercalate_cons by exact Hne.
      split; [ reflexivity | ].
      split; [ cbn [List.length firstn]; now constructor | ].
      split; [ congruence | ].
      intros rs Hrs. cbn [List.length]. f_equal. now apply (Hall rs).
  - (* a name with successors, the lookup raising *)
    exists [Print (MsgProgress i total compound_name) :: evs].
    cbn. split; [ reflexivity | ].
    split; [ constructor; [ exact Hseg | constructor ] | ].
    split; [ congruence | discriminate ].
Qed.

(** The loop runs to its end when [time.sleep] takes the delay at every
    moment and no lookup lets an exception out. *)
Lemma batch_loop_returns rest : forall total delay i results n,
  (forall n', sleep_raises n' delay = None) ->
  (forall compound_name n',
      In compound_name rest ->
      exists v, fst (get_smiles_from_pubchem py_str net compound_name n') = Return v) ->
  exists rs, fst (batch_loop py_str net sleep_raises total delay i rest results n) = Return rs.
Proof.
  induction rest as [ | compound_name rest' IH ]; intros total delay i results n Hdelay Hlook.
  - now exists results.
  - rewrite batch_loop_cons.
    destruct (Hlook compound_name n (or_introl eq_refl)) as [v Hv].
    destruct (get_smiles_from_pubchem py_str net compound_name n) as [[smiles | e] evs];
      [ | discriminate ].
    rewrite Hdelay.
    destruct (i <? total)%nat; cbn [fst]; apply IH; auto; intros; apply Hlook; now right.
Qed.

(** What a batch can let out: what a lookup lets out, and what
    [time.sleep] raises for the delay. *)
Lemma batch_loop_raises_only rest : forall total delay i results,
  raises_only (fun e => lookup_escape e \/ exists n', sleep_raises n' delay = Some e)
    (batch_loop py_str net sleep_raises total delay i rest results).
Proof.
  induction rest as [ | compound_name rest' IH ]; intros total delay i results.
  - apply raises_only_ret.
  - cbn [batch_loop].
    apply raises_only_bind; [ apply raises_only_emit | intros _ ].
    apply raises_only_bind; [ | intros smiles ].
    { apply raises_only_weaken with (2 := get_smiles_raises_only_escapes py_str net _).
      now left. }
    apply raises_only_bind; [ | intros _; apply IH ].
    destruct (i <? total)%nat; [ | apply raises_only_ret ].
    intros n e. rewrite time_sleep_run.
    destruct (sleep_raises n delay) as [ e' | ] eqn:Hsleep; [ | discriminate ].
    intros [= <-]. right. now exists n.
Qed.

Lemma batch_get_smiles_raises_only compound_names delay :
  raises_only (fun e => lookup_escape e \/ exists n', sleep_raises n' delay = Some e)
    (batch_get_smiles py_str net sleep_raises compound_names delay).
Proof.
  unfold batch_get_smiles.
  apply raises_only_bind; [ apply raises_only_emit | intros _ ].
  apply raises_only_bind; [ apply batch_loop_raises_only | intros results; apply raises_only_ret ].
Qed.

End Batch.

(** ** The table of results *)

Lemma Forall2_nth_error_left {A B} (R : A -> B -> Prop) xs ys :
  Forall2 R xs ys ->
  forall i x, nth_error xs i = Some x -> exists y, nth_error ys i = Some y /\ R x y.
Proof.
  induction 1 as [ | x0 y0 xs ys Hxy _ IH ]; intros [ | i ] x; cbn; try discriminate.
  - intros [= <-]. now exists y0.
  - apply IH.
Qed.

Lemma Forall2_nth_error_right {A B} (R : A -> B -> Prop) xs ys :
  Forall2 R xs ys ->
  forall i y, nth_error ys i = Some y -> exists x, nth_error xs i = Some x /\ R x y.
Proof.
  induction 1 as [ | x0 y0 xs ys Hxy _ IH ]; intros [ | i ] y; cbn; try discriminate.
  - intros [= <-]. now exists x0.
  - apply IH.
Qed.

Lemma batch_get_smiles_run py_str net sleep_raises compound_names delay n :
  batch_get_smiles py_str net sleep_raises compound_names delay n =
  match batch_loop py_str net sleep_raises (List.length compound_names) delay 1 compound_names [] n with
  | (Return results, evs) =>
      (Return (pd_DataFrame results), Print (MsgProcessing (List.length compound_names)) :: evs)
  | (Raise e, evs) =>
      (Raise e, Print (MsgProcessing (List.length compound_names)) :: evs)
  end.
Proof.
  unfold batch_get_smiles. rewrite bind_print. unfold bind, ret.
  destruct (batch_loop _ _ _ _ _ _ _ _ _) as [[results | e] evs]; cbn.
  - now rewrite app_nil_r.
  - reflexivity.
Qed.

(** The rows of a returned table, one per name and in the order of the
    names, each built from what a lookup of its name returned. *)
Lemma batch_get_smiles_records py_str net sleep_raises compound_names delay n df :
  fst (batch_get_smiles py_str net sleep_raises compound_names delay n) = Return df ->
  Forall2 (fun compound_name row =>
             exists smiles n',
               fst (get_smiles_from_pubchem py_str net compound_name n') = Return smiles
               /\ row = result_row compound_name smiles)
          compound_names (records df).
Proof.
  rewrite batch_get_smiles_run.
  destruct (batch_loop _ _ _ _ _ _ _ _ _) as [[results | e] evs] eqn:Hloop; [ | discriminate ].
  cbn. intros [= <-].
  destruct (batch_loop_rows py_str net sleep_raises compound_names _ _ _ _ _ results
              (f_equal fst Hloop)) as (rows & -> & Hrows).
  exact Hrows.
Qed.

(** C1. For every non-empty list of names, the table [batch_get_smiles]
    returns has as many rows as there are names, and row [i] carries the
    [i]-th name in its column Compound_Name.  The table is returned whenever
    [time.sleep] takes the delay at every moment and every lookup of the
    batch returns. *)
Theorem batch_get_smiles_one_row_per_name py_str net sleep_raises compound_names delay n :
  compound_names <> [] ->
  (forall df,
      fst (batch_get_smiles py_str net sleep_raises compound_names delay n) = Return df ->
      nrows df = List.length compound_names
      /\ forall i compound_name,
          nth_error compound_names i = Some compound_name ->
          cell df i "Compound_Name" = Some (PStr compound_name))
  /\ ((forall n', sleep_raises n' delay = None) ->
      (forall compound_name n',
          In compound_name compound_names ->
          exists v, fst (get_smiles_from_pubchem py_str net compound_name n') = Return v) ->
      exists df, fst (batch_get_smiles py_str net sleep_raises compound_names delay n) = Return df).
Proof.
  intros _. split.
  - intros df Hdf. apply batch_get_smiles_records in Hdf. split.
    + unfold nrows. symmetry. exact (Forall2_length Hdf).
    + intros i compound_name Hi.
      destruct (Forall2_nth_error_left _ _ _ Hdf i compound_name Hi)
        as (row & Hrow & smiles & n' & _ & ->).
      unfold cell. now rewrite Hrow.
  - intros Hdelay Hlook. rewrite batch_get_smiles_run.
    destruct (batch_loop_returns py_str net sleep_raises compound_names
                (List.length compound_names) delay 1 [] n Hdelay Hlook) as [rs Hrs].
    destruct (batch_loop _ _ _ _ _ _ _ _ _) as [[results | e] evs]; [ | discriminate ].
    now exists (pd_DataFrame results).
Qed.

Lemma batch_get_smiles_one_row_per_name_witness :
  ["mesitylene"; "methyl oleate"] <> []
  /\ exists df,
      fst (batch_get_smiles str_scalar mesitylene_net cpython_sleep_raises
             ["mesitylene"; "methyl oleate"] default_delay 0) = Return df
      /\ nrows df = 2
      /\ cell df 1 "Compound_Name" = Some (PStr "methyl oleate").
Proof.
  split; [ discriminate | ].
  destruct (batch_get_smiles_one_row_per_name str_scalar mesitylene_net
              cpython_sleep_raises ["mesitylene"; "methyl oleate"] default_delay 0)
    as [Hrows Hreturns]; [ discriminate | ].
  destruct Hreturns as [df Hdf].
  - intros n'. reflexivity.
  - intros compound_name n' [<- | [<- | []]]; eexists; vm_compute; reflexivity.
  - exists df. split; [ exact Hdf | ].
    destruct (Hrows df Hdf) as [Hn Hcell]. split; [ exact Hn | ].
    apply Hcell. reflexivity.
Defined.

(** ** The pacing of the batch *)

Lemma sleeps_app evs1 evs2 : sleeps (evs1 ++ evs2) = sleeps evs1 ++ sleeps evs2.
Proof.
  induction evs1 as [ | [ m | url t | secs ] evs1 IH ]; cbn; rewrite ?IH; reflexivity.
Qed.

Lemma sleeps_nil evs : Forall (fun ev => is_sleep ev = false) evs -> sleeps evs = [].
Proof.
  induction 1 as [ | [ m | url t | secs ] evs Hev _ IH ]; cbn in *; congruence.
Qed.

Lemma sleeps_resolution total compound_name seg :
  resolution_of total compound_name seg -> sleeps seg = [].
Proof. intros (i & lookup & -> & Hquiet). cbn. now apply sleeps_nil. Qed.

Lemma sleeps_intercalate total secs names segs :
  Forall2 (resolution_of total) names segs ->
  sleeps (intercalate [Sleep secs] segs) = repeat secs (List.length segs - 1).
Proof.
  induction 1 as [ | name seg names segs Hseg Hrest IH ]; [ reflexivity | ].
  destruct Hrest as [ | name' seg' names' segs' Hseg' Hrest' ].
  - cbn. now apply sleeps_resolution with (total := total) (compound_name := name).
  - rewrite intercalate_cons by discriminate.
    rewrite !sleeps_app, IH, (sleeps_resolution _ _ _ Hseg).
    cbn. now rewrite Nat.sub_0_r.
Qed.

(** C7. The events of [batch_get_smiles] are its opening line followed by
    the resolutions of the names, in order, with exactly one sleep of [delay]
    seconds between two consecutive resolutions and none after the last: a
    run that gets through its [n] names has slept [n - 1] times. *)
Theorem batch_get_smiles_sleeps_between py_str net sleep_raises compound_names delay n :
  exists segs,
    snd (batch_get_smiles py_str net sleep_raises compound_names delay n)
    = Print (MsgProcessing (List.length compound_names)) :: intercalate [Sleep delay] segs
    /\ Forall2 (resolution_of (List.length compound_names))
               (firstn (List.length segs) compound_names) segs
    /\ sleeps (snd (batch_get_smiles py_str net sleep_raises compound_names delay n))
       = repeat delay (List.length segs - 1)
    /\ (forall df,
          fst (batch_get_smiles py_str net sleep_raises compound_names delay n) = Return df ->
          List.length segs = List.length compound_names).
Proof.
  assert (Hmain : exists segs,
    snd (batch_get_smiles py_str net sleep_raises compound_names delay n)
    = Print (MsgProcessing (List.length compound_names)) :: intercalate [Sleep delay] segs
    /\ Forall2 (resolution_of (List.length compound_names))
               (firstn (List.length segs) compound_names) segs
    /\ (forall df,
          fst (batch_get_smiles py_str net sleep_raises compound_names delay n) = Return df ->
          List.length segs = List.length compound_names)).
  { rewrite batch_get_smiles_run. destruct compound_names as [ | compound_name rest ].
    - exists []. cbn. repeat split. constructor.
    - destruct (batch_loop_trace py_str net sleep_raises rest compound_name
                  (List.length (compound_name :: rest)) delay 1 [] n eq_refl)
        as (segs & Htrace & Hsegs & _ & Hall).
      exists segs.
      destruct (batch_loop _ _ _ _ _ _ _ _ _) as [[results | e] evs]; cbn [fst snd] in *.
      + subst evs. repeat split; [ exact Hsegs | ]. intros df _. now apply (Hall results).
      + subst evs. repeat split; [ exact Hsegs | discriminate ]. }
  destruct Hmain as (segs & Htrace & Hsegs & Hall).
  exists segs. repeat split; try assumption.
  rewrite Htrace. cbn [sleeps]. now apply sleeps_intercalate with (1 := Hsegs).
Qed.

Lemma batch_get_smiles_sleeps_between_witness :
  sleeps (snd (batch_get_smiles str_scalar mesitylene_net cpython_sleep_raises
                 ["mesitylene"; "methyl oleate"; "undecane"] default_delay 0))
  = [default_delay; default_delay].
Proof.
  destruct (batch_get_smiles_sleeps_between str_scalar mesitylene_net
              cpython_sleep_raises ["mesitylene"; "methyl oleate"; "undecane"] default_delay 0)
    as (segs & _ & _ & Hsleeps & Hall).
  rewrite Hsleeps. rewrite (Hall _ eq_refl). reflexivity.
Defined.

(** ** The empty batch *)

Lemma no_names_in_blank_text text :
  (forall line, In line (readlines text) -> strip line = "") ->
  map strip (filter (fun line => negb (strip line =? "")) (readlines text)) = [].
Proof.
  intros Hblank. induction (readlines text) as [ | line lines IH ]; [ reflexivity | ].
  cbn. rewrite (Hblank line) by now left. cbn. apply IH.
  intros l Hl. apply Hblank. now right.
Qed.

(** C10. For the empty list of names, [batch_get_smiles] returns a table
    with no row and no column, after its opening line and nothing else; so
    does [process_compounds_from_file] on a file all of whose lines are
    blank.  That table is not the one with the three columns and no row. *)
Theorem batch_get_smiles_empty_no_columns py_str net sleep_raises fs delay n :
  batch_get_smiles py_str net sleep_raises [] delay n
  = (Return {| columns := []; records := [] |}, [Print (MsgProcessing 0)])
  /\ (forall filename text,
        fs filename = Opened text ->
        (forall line, In line (readlines text) -> strip line = "") ->
        process_compounds_from_file py_str net fs sleep_raises filename n
        = (Return {| columns := []; records := [] |}, [Print (MsgProcessing 0)]))
  /\ {| columns := []; records := [] |}
     <> {| columns := ["Compound_Name"; "SMILES"; "Status"]; records := [] |}.
Proof.
  split; [ reflexivity | split; [ | discriminate ] ].
  intros filename text Hopen Hblank.
  unfold process_compounds_from_file, try_except, bind, open_.
  rewrite Hopen. cbn. now rewrite no_names_in_blank_text.
Qed.

Lemma batch_get_smiles_empty_no_columns_witness :
  columns (pd_DataFrame []) = []
  /\ process_compounds_from_file str_scalar mesitylene_net blank_file cpython_sleep_raises "compound_list.txt" 0
     = (Return {| columns := []; records := [] |}, [Print (MsgProcessing 0)]).
Proof.
  split; [ reflexivity | ].
  destruct (batch_get_smiles_empty_no_columns str_scalar mesitylene_net
              cpython_sleep_raises blank_file default_delay 0) as (_ & Hfile & _).
  apply (Hfile "compound_list.txt" _ eq_refl).
  intros line [<- | [<- | [<- | []]]]; reflexivity.
Defined.

(** ** The status of a row *)

Lemma truthy_str s : py_truthy (PStr s) = true <-> s <> "".
Proof. destruct s; cbn; split; congruence. Qed.

(** What the batch makes of the value of a lookup.  The row of a name is
    built from what a lookup of that name returned, and its Status is
    'Found' when that value is truthy, 'Not Found' otherwise.  For the two
    kinds of value the lookup documents, a string holds its place in the
    SMILES column and the Status is 'Found' exactly when the string is not
    empty, and [None] leaves no string there and the Status is
    'Not Found'. *)
Lemma batch_get_smiles_status_of_lookup py_str net sleep_raises compound_names delay n df i :
  fst (batch_get_smiles py_str net sleep_raises compound_names delay n) = Return df ->
  i < nrows df ->
  exists compound_name smiles n',
    nth_error compound_names i = Some compound_name
    /\ fst (get_smiles_from_pubchem py_str net compound_name n') = Return smiles
    /\ cell df i "Status"
       = Some (PStr (if py_truthy smiles then "Found" else "Not Found"))
    /\ (forall s, smiles = PStr s ->
          cell df i "SMILES" = Some (PStr s)
          /\ (cell df i "Status" = Some (PStr "Found") <-> s <> ""))
    /\ (smiles = PNone ->
          cell df i "SMILES" = None
          /\ cell df i "Status" = Some (PStr "Not Found")).
Proof.
  intros Hdf Hi. apply batch_get_smiles_records in Hdf.
  unfold nrows in Hi. apply nth_error_Some in Hi.
  destruct (nth_error (records df) i) as [ row | ] eqn:Hrow; [ clear Hi | congruence ].
  destruct (Forall2_nth_error_right _ _ _ Hdf i row Hrow)
    as (compound_name & Hname & smiles & n' & Hlookup & ->).
  exists compound_name, smiles, n'.
  split; [ exact Hname | ]. split; [ exact Hlookup | ].
  unfold cell. rewrite Hrow. cbn.
  split; [ reflexivity | ]. split.
  - intros s ->. split; [ reflexivity | ].
    rewrite <- truthy_str.
    destruct (py_truthy (PStr s)); split; congruence.
  - intros ->. split; reflexivity.
Qed.

(** C9. The claim holds of every row the batch builds from a string or
    from [None], the two kinds of value the lookup documents.  It fails
    where the lookup breaks that contract: a property record whose
    CanonicalSMILES is the list ["CCO"] is returned by the lookup as that
    list, neither a string nor [None], and the batch gives its row the
    Status 'Found' although the SMILES field holds no string. *)
Theorem batch_get_smiles_found_without_string :
  fst (get_smiles_from_pubchem str_scalar list_smiles_net "ethanol" 0)
  = Return (PList [PStr "CCO"])
  /\ ~ nonempty_str_or_None (PList [PStr "CCO"])
  /\ exists df,
      fst (batch_get_smiles str_scalar list_smiles_net cpython_sleep_raises
             ["ethanol"] default_delay 0) = Return df
      /\ records df
         = [[("Compound_Name", PStr "ethanol"); ("SMILES", PList [PStr "CCO"]);
             ("Status", PStr "Found")]]
      /\ cell df 0 "Status" = Some (PStr "Found")
      /\ ~ (exists s, cell df 0 "SMILES" = Some (PStr s) /\ s <> "").
Proof.
  split; [ reflexivity | ]. split.
  - intros [H | (s & H & _)]; discriminate H.
  - eexists. split; [ reflexivity | ].
    split; [ reflexivity | ]. split; [ reflexivity | ].
    intros (s & Hs & _). discriminate Hs.
Qed.

(** ** The lookup: what it returns, what it lets out, what it asks *)

Section LookupProperties.

Variable py_str : pyval -> string.
Variable net : nat -> string -> http_result.

(** The two URLs are never the same address. *)
Lemma cid_url_not_smiles_url compound_name cid :
  cid_url compound_name <> smiles_url py_str cid.
Proof.
  unfold cid_url, smiles_url, base_url. intros H.
  apply (f_equal (String.get 51)) in H. cbn in H. discriminate H.
Qed.

(** How the identifier step fails. *)
Lemma get_cid_no_response compound_name n :
  net n (cid_url compound_name) = NoResponse ->
  fst (get_cid net compound_name n) = Raise RequestException.
Proof.
  intros H. unfold get_cid.
  rewrite (bind_Raise _ _ n RequestException [HttpGet (cid_url compound_name) 10]);
    [ reflexivity | ].
  rewrite requests_get_run. fold (cid_url compound_name). now rewrite H.
Qed.

Lemma get_cid_responded compound_name n r :
  net n (cid_url compound_name) = Responded r ->
  fst (get_cid net compound_name n) =
  if ((400 <=? status_code r) && (status_code r <? 600))%Z then Raise RequestException
  else match body r with
       | None =>
           match why_not r with
           | NotJSON => Raise RequestException
           | HugeInteger => Raise ValueError
           | TooDeep => Raise RecursionError
           end
       | Some data =>
           match data with
           | PDict top =>
               match dict_get "IdentifierList" top with
               | None => Raise KeyError
               | Some (PDict inner) =>
                   match dict_get "CID" inner with
                   | None => Raise KeyError
                   | Some cids => fst (getitem_0 cids 0)
                   end
               | Some _ => Raise TypeError
               end
           | _ => Raise TypeError
           end
       end.
Proof.
  intros H. unfold get_cid.
  rewrite (bind_Return _ _ n r [HttpGet (cid_url compound_name) 10])
    by (rewrite requests_get_run; fold (cid_url compound_name); now rewrite H).
  cbn [fst]. unfold bind, raise_for_status, json.
  destruct (_ && _); [ reflexivity | ]. cbn.
  destruct (body r) as [ data | ]; [ | now destruct (why_not r) ]. cbn.
  rewrite getitem_str_run.
  destruct data as [ | | | | | | top ]; try reflexivity.
  destruct (dict_get "IdentifierList" top) as [ il | ]; [ | reflexivity ]. cbn.
  rewrite getitem_str_run.
  destruct il as [ | | | | | | inner ]; try reflexivity.
  destruct (dict_get "CID" inner) as [ cids | ]; [ | reflexivity ]. cbn.
  destruct cids as [ | | | | [ | ] | [ | ] | ]; reflexivity.
Qed.

(** Each of the failures of the identifier lookup makes the identifier
    step raise. *)
Lemma identifier_lookup_fails_raises compound_name n :
  identifier_lookup_fails net compound_name n ->
  exists e, fst (get_cid net compound_name n) = Raise e.
Proof.
  intros [Hnone | (r & Hr & Hwhy)].
  - exists RequestException. now apply get_cid_no_response.
  - rewrite (get_cid_responded compound_name n r Hr).
    destruct ((400 <=? status_code r) && (status_code r <? 600))%Z eqn:Hstatus;
      [ now exists RequestException | ].
    destruct Hwhy as [[Hlo Hhi] | [Hbody | (data & Hbody & top & -> & Hshape)]].
    + apply Z.leb_le in Hlo. apply Z.ltb_lt in Hhi.
      rewrite Hlo, Hhi in Hstatus. discriminate Hstatus.
    + rewrite Hbody. destruct (why_not r); eexists; reflexivity.
    + rewrite Hbody.
      destruct Hshape as [Hlist | (inner & Hlist & [Hcid | Hcid])];
        rewrite Hlist; try rewrite Hcid; eexists; reflexivity.
Qed.

(** C5, as amended.  Whenever the identifier lookup fails, for want of a
    response, for a 4xx or 5xx status, for a body that does not decode or
    for an absent or empty list of identifiers, and more generally whenever
    the identifier step raises, the lookup issues one request only, the one
    for the identifiers: no request for a property is made. *)
Theorem get_smiles_no_property_request_after_failure compound_name n :
  identifier_lookup_fails net compound_name n
  \/ (exists e, fst (get_cid net compound_name n) = Raise e) ->
  http_requests (snd (get_smiles_from_pubchem py_str net compound_name n))
  = [cid_url compound_name]
  /\ forall cid,
      ~ In (smiles_url py_str cid)
           (http_requests (snd (get_smiles_from_pubchem py_str net compound_name n))).
Proof.
  intros Hfail.
  assert (Hraise : exists e, fst (get_cid net compound_name n) = Raise e).
  { destruct Hfail as [Hfail | Hfail];
      [ now apply identifier_lookup_fails_raises | exact Hfail ]. }
  destruct Hraise as [e Hraise].
  assert (Hreq : http_requests (snd (get_smiles_from_pubchem py_str net compound_name n))
                 = [cid_url compound_name]).
  { rewrite (get_smiles_cid_fails py_str net compound_name n e Hraise).
    now destruct (lookup_catches e). }
  split; [ exact Hreq | ].
  intros cid. rewrite Hreq. intros [H | []].
  exact (cid_url_not_smiles_url _ _ H).
Qed.

(** What the two steps deliver from answers of the documented shape. *)
Lemma get_cid_of_identifier_response compound_name n r cid :
  net n (cid_url compound_name) = Responded r ->
  identifier_response r cid ->
  fst (get_cid net compound_name n) = Return cid.
Proof.
  intros Hr (Hstatus & top & inner & others & Hbody & Hlist & Hcid).
  rewrite (get_cid_responded compound_name n r Hr).
  unfold status_accepted in Hstatus. now rewrite Hstatus, Hbody, Hlist, Hcid.
Qed.

Lemma get_properties_of_property_response cid n r record :
  net n (smiles_url py_str cid) = Responded r ->
  property_response r record ->
  fst (get_properties py_str net cid n) = Return (PDict record).
Proof.
  intros Hr (Hstatus & top & table & others & Hbody & Htable & Hprops).
  unfold get_properties.
  rewrite (bind_Return _ _ n r [HttpGet (smiles_url py_str cid) 10])
    by (rewrite requests_get_run; now rewrite Hr).
  cbn [fst]. unfold bind, raise_for_status, json.
  unfold status_accepted in Hstatus. rewrite Hstatus. cbn. rewrite Hbody. cbn.
  rewrite Htable. cbn. rewrite Hprops. reflexivity.
Qed.

(** C4. Let the identifier request be answered with a list of identifiers
    and the property request for the first of them with a list of property
    records, and let [record] be the first record of that answer.  When
    [record] has the key CanonicalSMILES, the lookup returns the value under
    that key as it is; when it has not but has ConnectivitySMILES, the
    value under that one; when it has neither, [None]. *)
Theorem get_smiles_prefers_canonical compound_name n r1 cid r2 record :
  net n (cid_url compound_name) = Responded r1 ->
  identifier_response r1 cid ->
  net (n + 1) (smiles_url py_str cid) = Responded r2 ->
  property_response r2 record ->
  (forall v,
      dict_get "CanonicalSMILES" record = Some v ->
      fst (get_smiles_from_pubchem py_str net compound_name n) = Return v)
  /\ (forall v,
        dict_get "CanonicalSMILES" record = None ->
        dict_get "ConnectivitySMILES" record = Some v ->
        fst (get_smiles_from_pubchem py_str net compound_name n) = Return v)
  /\ (dict_get "CanonicalSMILES" record = None ->
      dict_get "ConnectivitySMILES" record = None ->
      fst (get_smiles_from_pubchem py_str net compound_name n) = Return PNone).
Proof.
  intros Hr1 Hid Hr2 Hrecord.
  rewrite (get_smiles_picks py_str net compound_name n cid (PDict record)
             (get_cid_of_identifier_response _ _ _ _ Hr1 Hid)
             (get_properties_of_property_response _ _ _ _ Hr2 Hrecord)).
  rewrite pick_smiles_dict. unfold picked.
  split; [ | split ].
  - intros v Hcan. now rewrite Hcan.
  - intros v Hcan Hcon. now rewrite Hcan, Hcon.
  - intros Hcan Hcon. now rewrite Hcan, Hcon.
Qed.


End LookupProperties.

Lemma get_smiles_no_property_request_after_failure_witness :
  identifier_lookup_fails mesitylene_net "methyl oleate" 0
  /\ http_requests (snd (get_smiles_from_pubchem str_scalar mesitylene_net "methyl oleate" 0))
     = ["https://pubchem.ncbi.nlm.nih.gov/rest/pug/compound/name/methyl%20oleate/cids/JSON"].
Proof.
  assert (Hfails : identifier_lookup_fails mesitylene_net "methyl oleate" 0).
  { right. eexists. split; [ reflexivity | ]. left. cbn. lia. }
  split; [ exact Hfails | ].
  apply (get_smiles_no_property_request_after_failure str_scalar mesitylene_net
           "methyl oleate" 0).
  left. exact Hfails.
Defined.

(** C5, the claim as worded, fails: a status that is not 2xx is not always
    a failure.  The identifier request is answered with the status 300 and
    a list of identifiers; [raise_for_status] lets it through, and the
    property request is made. *)
Lemma get_smiles_asks_after_status_300 :
  (exists r,
      multiple_choices_net 0 (cid_url "mesitylene") = Responded r
      /\ status_code r = 300%Z
      /\ ~ (200 <= status_code r < 300)%Z)
  /\ http_requests
       (snd (get_smiles_from_pubchem str_scalar multiple_choices_net "mesitylene" 0))
     = [cid_url "mesitylene"; smiles_url str_scalar (PInt 7583)]
  /\ In (smiles_url str_scalar (PInt 7583))
        (http_requests
           (snd (get_smiles_from_pubchem str_scalar multiple_choices_net "mesitylene" 0)))
  /\ fst (get_smiles_from_pubchem str_scalar multiple_choices_net "mesitylene" 0)
     = Return (PStr "CC1=CC(=CC(=C1)C)C").
Proof.
  split; [ | split; [ reflexivity | split; [ right; now left | reflexivity ] ] ].
  eexists. split; [ reflexivity | ]. split; [ reflexivity | ]. cbn. lia.
Qed.

Lemma get_smiles_prefers_canonical_witness :
  fst (get_smiles_from_pubchem str_scalar mesitylene_net "mesitylene" 0)
  = Return (PStr "CC1=CC(=CC(=C1)C)C").
Proof.
  destruct (get_smiles_prefers_canonical str_scalar mesitylene_net "mesitylene" 0
              (Response 200
                 (Some (PDict [("IdentifierList", PDict [("CID", PList [PInt 7583])])])))
              (PInt 7583)
              (Response 200
                 (Some (PDict [("PropertyTable", PDict [("Properties", PList [PDict
                    [("CID", PInt 7583);
                     ("CanonicalSMILES", PStr "CC1=CC(=CC(=C1)C)C")]])])])))
              [("CID", PInt 7583); ("CanonicalSMILES", PStr "CC1=CC(=CC(=C1)C)C")])
    as [Hcanonical _].
  - reflexivity.
  - split; [ reflexivity | ]. now eexists _, _, _.
  - reflexivity.
  - split; [ reflexivity | ]. now eexists _, _, _.
  - apply Hcanonical. reflexivity.
Defined.



(** C2. A [TypeError] escapes the lookup, and with it the batch: the
    service answers 200 with an identifier list whose CID is the number 2244,
    and [2244[0]] raises what the [except] clause does not name. *)
Theorem get_smiles_TypeError_escapes :
  get_smiles_from_pubchem str_scalar scalar_cid_net "aspirin" 0
  = (Raise TypeError,
     [HttpGet "https://pubchem.ncbi.nlm.nih.gov/rest/pug/compound/name/aspirin/cids/JSON" 10])
  /\ fst (batch_get_smiles str_scalar scalar_cid_net cpython_sleep_raises ["aspirin"] default_delay 0)
     = Raise TypeError.
Proof. split; reflexivity. Qed.

(** ** Quoting the name *)

Lemma chars_app s1 s2 : chars (s1 ++ s2)%string = chars s1 ++ chars s2.
Proof. unfold chars. induction s1 as [ | c s1 IH ]; cbn; [ | rewrite IH ]; reflexivity. Qed.

Lemma quote_app s1 s2 : quote (s1 ++ s2)%string = (quote s1 ++ quote s2)%string.
Proof.
  induction s1 as [ | c s1 IH ]; cbn; [ reflexivity | ].
  rewrite IH. set (q := quote_char c). clearbody q.
  induction q as [ | d q IHq ]; cbn; [ | rewrite IHq ]; reflexivity.
Qed.

Lemma hex_digit_safe n : always_safe (hex_digit n) = true.
Proof.
  unfold hex_digit. do 16 (destruct n as [ | n ]; [ reflexivity | ]).
  now destruct n.
Qed.

Lemma quote_char_chars c d :
  In d (chars (quote_char c)) ->
  (d = c /\ (always_safe c = true \/ c = "/"%char))
  \/ ((always_safe d = true \/ d = "%"%char)
      /\ always_safe c = false /\ c <> "/"%char).
Proof.
  unfold quote_char, percent_encode, chars.
  destruct (always_safe c) eqn:Hsafe; cbn [orb list_ascii_of_string In].
  - intros [<- | []]. left. auto.
  - destruct (Ascii.eqb c "/") eqn:Hslash; cbn [orb list_ascii_of_string In].
    + apply Ascii.eqb_eq in Hslash. intros [<- | []]. left. auto.
    + apply Ascii.eqb_neq in Hslash.
      intros [<- | [<- | [<- | []]]]; right; repeat split;
        auto using hex_digit_safe.
Qed.

Lemma get_smiles_first_request py_str net compound_name n :
  hd_error (http_requests (snd (get_smiles_from_pubchem py_str net compound_name n)))
  = Some (cid_url compound_name).
Proof.
  destruct (fst (get_cid net compound_name n)) as [ cid | e ] eqn:Hcid.
  - destruct (fst (get_properties py_str net cid (n + 1))) as [ properties | e ] eqn:Hprop.
    + rewrite (get_smiles_picks py_str net compound_name n cid _ Hcid Hprop).
      destruct (pick_smiles compound_name properties (n + 2)) as [[v | e] evs];
        [ | destruct (lookup_catches e) ]; reflexivity.
    + rewrite (get_smiles_properties_fail py_str net compound_name n cid e Hcid Hprop).
      now destruct (lookup_catches e).
  - rewrite (get_smiles_cid_fails py_str net compound_name n e Hcid).
    now destruct (lookup_catches e).
Qed.

(** C8, as amended.  The first request of a lookup goes to the base URL
    followed by the quoted name and "/cids/JSON".  The quoted name is made of
    letters, digits, the marks [_.-~], '/' and '%' only: every other
    character of the name has been replaced by '%' and two hexadecimal
    digits.  A name without '/' is quoted without '/', and so is a single
    path segment; a '/' of the name is kept as it is. *)
Theorem get_smiles_quotes_name_keeping_slash py_str net compound_name n :
  hd_error (http_requests (snd (get_smiles_from_pubchem py_str net compound_name n)))
  = Some (base_url ++ "/" ++ quote compound_name ++ "/cids/JSON")%string
  /\ (forall d, In d (chars (quote compound_name)) ->
                always_safe d = true \/ d = "/"%char \/ d = "%"%char)
  /\ (~ In "/"%char (chars compound_name) -> ~ In "/"%char (chars (quote compound_name)))
  /\ (forall rest,
        quote (compound_name ++ "/" ++ rest)
        = (quote compound_name ++ "/" ++ quote rest)%string).
Proof.
  split; [ apply get_smiles_first_request | ].
  split; [ | split ].
  - induction compound_name as [ | c s IH ]; cbn; [ intros d [] | ].
    intros d. rewrite chars_app, in_app_iff. intros [Hd | Hd]; [ | now apply IH ].
    apply quote_char_chars in Hd.
    destruct Hd as [[-> [H | H]] | ([H | H] & _)]; auto.
  - induction compound_name as [ | c s IH ]; cbn; [ auto | ].
    intros Hname. rewrite chars_app, in_app_iff. intros [Hd | Hd].
    + apply quote_char_chars in Hd.
      destruct Hd as [[<- _] | ([H | H] & _)];
        [ apply Hname; now left | discriminate H | discriminate H ].
    + apply IH; [ | exact Hd ]. intros H. apply Hname. now right.
  - intros rest. rewrite quote_app. reflexivity.
Qed.

Lemma get_smiles_quotes_name_keeping_slash_witness :
  quote "methyl oleate" = "methyl%20oleate"
  /\ ~ In "/"%char (chars (quote "methyl oleate")).
Proof.
  split; [ reflexivity | ].
  destruct (get_smiles_quotes_name_keeping_slash str_scalar mesitylene_net
              "methyl oleate" 0) as (_ & _ & Hsegment & _).
  apply Hsegment. cbn. intuition discriminate.
Defined.

(** C8, the claim as worded, fails: the '/' of a name goes into the URL
    unescaped, where it ends one path segment and starts another. *)
Lemma quote_keeps_slash :
  cid_url "cis/trans-decalin"
  = "https://pubchem.ncbi.nlm.nih.gov/rest/pug/compound/name/cis/trans-decalin/cids/JSON"
  /\ In "/"%char (chars "cis/trans-decalin")
  /\ In "/"%char (chars (quote "cis/trans-decalin")).
Proof.
  split; [ reflexivity | ].
  split; vm_compute; do 3 right; now left.
Qed.

(** ** Reading the names from a file *)

(** The example of the specification: blank lines are skipped, the names
    are stripped. *)
Example names_of_water_and_salt :
  map strip (filter (fun line => negb (strip line =? ""))
               (readlines ("water" ++ newline ++ newline ++ "  " ++ newline
                             ++ "salt" ++ newline)%string))
  = ["water"; "salt"].
Proof. reflexivity. Qed.

(** C6, as amended.  For every path at which [open] raises
    [FileNotFoundError], no such file or directory,
    [process_compounds_from_file] prints its diagnostic and returns the
    table with no row and no column, and the failure does not reach the
    caller.  Every other failure to open or to read the file goes to the
    caller, and nothing is printed: the [PermissionError] of a file to
    which access is denied, the [IsADirectoryError] of a directory, the
    [NotADirectoryError] of a path through a file, the [ValueError] of a
    name with a null character in it, any other [OSError], and the
    [UnicodeDecodeError] of a file that is no text. *)
Theorem process_compounds_from_unopened_file py_str net fs sleep_raises filename n :
  (fs filename = NotFound ->
   process_compounds_from_file py_str net fs sleep_raises filename n
   = (Return {| columns := []; records := [] |}, [Print (MsgFileNotFound filename)]))
  /\ (fs filename = PermissionDenied ->
      process_compounds_from_file py_str net fs sleep_raises filename n
      = (Raise PermissionError, []))
  /\ (fs filename = IsADirectory ->
      process_compounds_from_file py_str net fs sleep_raises filename n
      = (Raise IsADirectoryError, []))
  /\ (fs filename = NotADirectory ->
      process_compounds_from_file py_str net fs sleep_raises filename n
      = (Raise NotADirectoryError, []))
  /\ (fs filename = BadName ->
      process_compounds_from_file py_str net fs sleep_raises filename n
      = (Raise ValueError, []))
  /\ (fs filename = OtherOSError ->
      process_compounds_from_file py_str net fs sleep_raises filename n
      = (Raise OSError, []))
  /\ (fs filename = Undecodable ->
      process_compounds_from_file py_str net fs sleep_raises filename n
      = (Raise UnicodeDecodeError, [])).
Proof.
  unfold process_compounds_from_file, try_except, bind, open_.
  repeat split; intros Hfs; rewrite Hfs; reflexivity.
Qed.

Lemma process_compounds_from_unopened_file_witness :
  process_compounds_from_file str_scalar mesitylene_net no_files cpython_sleep_raises
    "compound_list.txt" 0
  = (Return {| columns := []; records := [] |},
     [Print (MsgFileNotFound "compound_list.txt")]).
Proof.
  destruct (process_compounds_from_unopened_file str_scalar mesitylene_net no_files
              cpython_sleep_raises "compound_list.txt" 0) as [Hmissing _].
  apply Hmissing. reflexivity.
Defined.

(** C6, the claim as worded, fails: when access to the file is denied, the
    [PermissionError] of [open] is not caught; nothing is printed and no
    table is returned. *)
Lemma process_compounds_permission_denied :
  process_compounds_from_file str_scalar mesitylene_net locked_files cpython_sleep_raises
    "compound_list.txt" 0
  = (Raise PermissionError, [])
  /\ ~ (exists df evs,
          process_compounds_from_file str_scalar mesitylene_net locked_files
            cpython_sleep_raises "compound_list.txt" 0 = (Return df, evs)).
Proof.
  split; [ reflexivity | ].
  intros (df & evs & H). discriminate H.
Qed.

(** * Further properties of the three functions *)

(** ** One lookup *)

Lemma gets_app evs1 evs2 : gets (evs1 ++ evs2) = gets evs1 ++ gets evs2.
Proof.
  induction evs1 as [ | [ m | url t | secs ] evs1 IH ]; cbn; rewrite ?IH; reflexivity.
Qed.

Lemma printed_app evs1 evs2 : printed (evs1 ++ evs2) = printed evs1 ++ printed evs2.
Proof.
  induction evs1 as [ | [ m | url t | secs ] evs1 IH ]; cbn; rewrite ?IH; reflexivity.
Qed.

(** The choice among the fields prints at most its own line, and then
    returns [None]; what it raises is a [TypeError]. *)
Lemma pick_smiles_outcomes compound_name properties n :
  (exists v, pick_smiles compound_name properties n = (Return v, []))
  \/ pick_smiles compound_name properties n
     = (Return PNone, [Print (MsgNoSmiles compound_name)])
  \/ pick_smiles compound_name properties n = (Raise TypeError, []).
Proof.
  destruct properties as [ | b | z | f | s | items | record ];
    try (right; right; reflexivity).
  - unfold pick_smiles, bind, contains, ret. cbn.
    destruct (is_substring "CanonicalSMILES" s); cbn; [ right; right; reflexivity | ].
    destruct (is_substring "ConnectivitySMILES" s); cbn; [ right; right; reflexivity | ].
    right. left. reflexivity.
  - unfold pick_smiles, bind, contains, ret. cbn.
    destruct (existsb _ items); cbn; [ right; right; reflexivity | ].
    destruct (existsb _ items); cbn; [ right; right; reflexivity | ].
    right. left. reflexivity.
  - rewrite pick_smiles_dict. destruct (picked record) as [ v | ].
    + left. now exists v.
    + right. now left.
Qed.

Section LookupExtras.

Variable py_str : pyval -> string.
Variable net : nat -> string -> http_result.


(** X2. A lookup makes one request or two, never more, each with a
    timeout of 10 seconds: first the identifier request for the quoted name
    and then, only when that step delivered an identifier, the property
    request for that identifier. *)
Theorem get_smiles_one_or_two_requests compound_name n :
  gets (snd (get_smiles_from_pubchem py_str net compound_name n))
  = [(cid_url compound_name, 10%Z)]
  \/ exists cid,
      fst (get_cid net compound_name n) = Return cid
      /\ gets (snd (get_smiles_from_pubchem py_str net compound_name n))
         = [(cid_url compound_name, 10%Z); (smiles_url py_str cid, 10%Z)].
Proof.
  destruct (fst (get_cid net compound_name n)) as [ cid | e ] eqn:Hcid.
  - right. exists cid. split; [ reflexivity | ].
    destruct (fst (get_properties py_str net cid (n + 1))) as [ properties | e ] eqn:Hprop.
    + rewrite (get_smiles_picks py_str net compound_name n cid _ Hcid Hprop).
      destruct (pick_smiles_outcomes compound_name properties (n + 2))
        as [[v ->] | [-> | ->]]; reflexivity.
    + rewrite (get_smiles_properties_fail py_str net compound_name n cid e Hcid Hprop).
      now destruct (lookup_catches e).
  - left. rewrite (get_smiles_cid_fails py_str net compound_name n e Hcid).
    now destruct (lookup_catches e).
Qed.

(** X3. A lookup prints at most one line, and when it prints one it returns
    [None]: the line either says that the record has no SMILES, or names the
    compound and the exception that was caught. *)
Theorem get_smiles_diagnostic_means_None compound_name n :
  printed (snd (get_smiles_from_pubchem py_str net compound_name n)) = []
  \/ exists m,
      printed (snd (get_smiles_from_pubchem py_str net compound_name n)) = [m]
      /\ fst (get_smiles_from_pubchem py_str net compound_name n) = Return PNone
      /\ (m = MsgNoSmiles compound_name
          \/ exists e, m = MsgError compound_name e /\ lookup_catches e = true).
Proof.
  destruct (fst (get_cid net compound_name n)) as [ cid | e ] eqn:Hcid.
  - destruct (fst (get_properties py_str net cid (n + 1))) as [ properties | e ] eqn:Hprop.
    + rewrite (get_smiles_picks py_str net compound_name n cid _ Hcid Hprop).
      destruct (pick_smiles_outcomes compound_name properties (n + 2))
        as [[v ->] | [-> | ->]]; cbn.
      * now left.
      * right. exists (MsgNoSmiles compound_name). auto.
      * now left.
    + rewrite (get_smiles_properties_fail py_str net compound_name n cid e Hcid Hprop).
      destruct (lookup_catches e) eqn:Hcatch; cbn; [ | now left ].
      right. exists (MsgError compound_name e). repeat split. right. now exists e.
  - rewrite (get_smiles_cid_fails py_str net compound_name n e Hcid).
    destruct (lookup_catches e) eqn:Hcatch; cbn; [ | now left ].
    right. exists (MsgError compound_name e). repeat split. right. now exists e.
Qed.

(** X4. When the identifier request gets no response (connection error,
    timeout) or a response with a 4xx or 5xx status, the lookup returns
    [None] after that one request and one line naming the compound and the
    [RequestException]. *)
Theorem get_smiles_request_failure_gives_None compound_name n :
  (net n (cid_url compound_name) = NoResponse
   \/ exists r, net n (cid_url compound_name) = Responded r
                /\ (400 <= status_code r < 600)%Z) ->
  get_smiles_from_pubchem py_str net compound_name n
  = (Return PNone,
     [HttpGet (cid_url compound_name) 10;
      Print (MsgError compound_name RequestException)]).
Proof.
  intros Hfail.
  rewrite (get_smiles_cid_fails py_str net compound_name n RequestException);
    [ reflexivity | ].
  destruct Hfail as [Hnone | (r & Hr & Hlo & Hhi)].
  - now apply get_cid_no_response.
  - rewrite (get_cid_responded net compound_name n r Hr).
    apply Z.leb_le in Hlo. apply Z.ltb_lt in Hhi. now rewrite Hlo, Hhi.
Qed.

End LookupExtras.

Lemma get_smiles_request_failure_gives_None_witness :
  get_smiles_from_pubchem str_scalar mesitylene_net "undecane" 3
  = (Return PNone,
     [HttpGet (cid_url "undecane") 10; Print (MsgError "undecane" RequestException)]).
Proof.
  apply (get_smiles_request_failure_gives_None str_scalar mesitylene_net "undecane" 3).
  right. eexists. split; [ reflexivity | ]. cbn. lia.
Defined.

Section LookupShapes.

Variable py_str : pyval -> string.
Variable net : nat -> string -> http_result.

(** X5. When the answer to the identifier request has an accepted status
    and a JSON object for body, but the object has no key IdentifierList, or
    the identifier list has no key CID, or the list under CID is empty, the
    lookup returns [None] after that one request and prints the [KeyError],
    respectively the [IndexError], with the name of the compound. *)
Theorem get_smiles_without_identifier compound_name n r top :
  net n (cid_url compound_name) = Responded r ->
  status_accepted r ->
  body r = Some (PDict top) ->
  (dict_get "IdentifierList" top = None ->
   get_smiles_from_pubchem py_str net compound_name n
   = (Return PNone,
      [HttpGet (cid_url compound_name) 10; Print (MsgError compound_name KeyError)]))
  /\ (forall inner,
        dict_get "IdentifierList" top = Some (PDict inner) ->
        dict_get "CID" inner = None ->
        get_smiles_from_pubchem py_str net compound_name n
        = (Return PNone,
           [HttpGet (cid_url compound_name) 10; Print (MsgError compound_name KeyError)]))
  /\ (forall inner,
        dict_get "IdentifierList" top = Some (PDict inner) ->
        dict_get "CID" inner = Some (PList []) ->
        get_smiles_from_pubchem py_str net compound_name n
        = (Return PNone,
           [HttpGet (cid_url compound_name) 10; Print (MsgError compound_name IndexError)])).
Proof.
  intros Hr Hstatus Hbody. unfold status_accepted in Hstatus.
  pose proof (get_cid_responded net compound_name n r Hr) as Hcid.
  rewrite Hstatus, Hbody in Hcid.
  split; [ | split ].
  - intros Hlist. rewrite Hlist in Hcid.
    now rewrite (get_smiles_cid_fails py_str net compound_name n KeyError Hcid).
  - intros inner Hlist Hcids. rewrite Hlist, Hcids in Hcid.
    now rewrite (get_smiles_cid_fails py_str net compound_name n KeyError Hcid).
  - intros inner Hlist Hcids. rewrite Hlist, Hcids in Hcid.
    now rewrite (get_smiles_cid_fails py_str net compound_name n IndexError Hcid).
Qed.

(** X6. When both requests are answered in the documented shape, the
    lookup uses the first identifier of the list and the first record of the
    property list, whatever follows them: it asks for the properties of that
    identifier and returns the SMILES of that record without printing, or,
    when the record has neither key, prints so and returns [None]. *)
Theorem get_smiles_takes_first_match compound_name n r1 cid r2 record :
  net n (cid_url compound_name) = Responded r1 ->
  identifier_response r1 cid ->
  net (n + 1) (smiles_url py_str cid) = Responded r2 ->
  property_response r2 record ->
  get_smiles_from_pubchem py_str net compound_name n
  = match picked record with
    | Some v =>
        (Return v,
         [HttpGet (cid_url compound_name) 10; HttpGet (smiles_url py_str cid) 10])
    | None =>
        (Return PNone,
         [HttpGet (cid_url compound_name) 10; HttpGet (smiles_url py_str cid) 10;
          Print (MsgNoSmiles compound_name)])
    end.
Proof.
  intros Hr1 Hid Hr2 Hprop.
  rewrite (get_smiles_picks py_str net compound_name n cid (PDict record)
             (get_cid_of_identifier_response net _ _ _ _ Hr1 Hid)
             (get_properties_of_property_response py_str net _ _ _ _ Hr2 Hprop)).
  rewrite pick_smiles_dict. now destruct (picked record).
Qed.

End LookupShapes.

Lemma get_smiles_without_identifier_witness :
  get_smiles_from_pubchem str_scalar empty_cid_net "undecane" 0
  = (Return PNone,
     [HttpGet (cid_url "undecane") 10; Print (MsgError "undecane" IndexError)]).
Proof.
  destruct (get_smiles_without_identifier str_scalar empty_cid_net "undecane" 0
              (Response 200 (Some (PDict [("IdentifierList", PDict [("CID", PList [])])])))
              [("IdentifierList", PDict [("CID", PList [])])]
              eq_refl eq_refl eq_refl) as (_ & _ & Hempty).
  apply (Hempty [("CID", PList [])]); reflexivity.
Defined.

Lemma get_smiles_takes_first_match_witness :
  get_smiles_from_pubchem str_scalar mesitylene_net "mesitylene" 0
  = (Return (PStr "CC1=CC(=CC(=C1)C)C"),
     [HttpGet (cid_url "mesitylene") 10; HttpGet (smiles_url str_scalar (PInt 7583)) 10]).
Proof.
  apply (get_smiles_takes_first_match str_scalar mesitylene_net "mesitylene" 0
           (Response 200
              (Some (PDict [("IdentifierList", PDict [("CID", PList [PInt 7583])])])))
           (PInt 7583)
           (Response 200
              (Some (PDict [("PropertyTable", PDict [("Properties", PList [PDict
                 [("CID", PInt 7583); ("CanonicalSMILES", PStr "CC1=CC(=CC(=C1)C)C")]])])])))
           [("CID", PInt 7583); ("CanonicalSMILES", PStr "CC1=CC(=CC(=C1)C)C")]).
  - reflexivity.
  - split; [ reflexivity | ]. now eexists _, _, _.
  - reflexivity.
  - split; [ reflexivity | ]. now eexists _, _, _.
Defined.

(** ** One batch *)

Lemma get_smiles_emits_only py_str net compound_name (Q : event -> Prop) :
  (forall url, Q (HttpGet url 10)) ->
  Q (Print (MsgNoSmiles compound_name)) ->
  (forall e, Q (Print (MsgError compound_name e))) ->
  emits_only Q (get_smiles_from_pubchem py_str net compound_name).
Proof.
  intros Hget Hnone Herr. unfold get_smiles_from_pubchem.
  apply emits_only_try.
  - apply emits_only_bind.
    { intros n. rewrite get_cid_events. now repeat constructor. }
    intros cid. apply emits_only_bind.
    { intros n. rewrite get_properties_events. now repeat constructor. }
    intros properties n.
    destruct (pick_smiles_outcomes compound_name properties n) as [[v ->] | [-> | ->]];
      now repeat constructor.
  - intros e. apply emits_only_bind; [ now apply emits_only_emit | intros _; apply emits_only_ret ].
Qed.

Lemma get_smiles_requests_in_le_2 py_str net compound_name n :
  requests_in (snd (get_smiles_from_pubchem py_str net compound_name n)) <= 2.
Proof.
  destruct (fst (get_cid net compound_name n)) as [ cid | e ] eqn:Hcid.
  - destruct (fst (get_properties py_str net cid (n + 1))) as [ properties | e ] eqn:Hprop.
    + rewrite (get_smiles_picks py_str net compound_name n cid _ Hcid Hprop).
      destruct (pick_smiles_outcomes compound_name properties (n + 2))
        as [[v ->] | [-> | ->]]; cbn; lia.
    + rewrite (get_smiles_properties_fail py_str net compound_name n cid e Hcid Hprop).
      destruct (lookup_catches e); cbn; lia.
  - rewrite (get_smiles_cid_fails py_str net compound_name n e Hcid).
    destruct (lookup_catches e); cbn; lia.
Qed.

Lemma requests_in_gets evs : requests_in evs = List.length (gets evs).
Proof.
  unfold requests_in.
  induction evs as [ | [ m | url t | secs ] evs IH ]; cbn; rewrite ?IH; reflexivity.
Qed.

Lemma Forall2_Forall_right {A B} (R : A -> B -> Prop) (P : B -> Prop) xs ys :
  Forall2 R xs ys -> (forall x y, R x y -> P y) -> Forall P ys.
Proof. induction 1; intros HRP; constructor; eauto. Qed.

Lemma columns_of_result_rows rows cols :
  Forall (fun row => exists compound_name smiles, row = result_row compound_name smiles) rows ->
  cols = ["Compound_Name"; "SMILES"; "Status"] \/ (cols = [] /\ rows <> []) ->
  fold_left (fun cols d => fold_left add_column (map fst d) cols) rows cols
  = ["Compound_Name"; "SMILES"; "Status"].
Proof.
  intros Hrows. revert cols.
  induction Hrows as [ | row rows (compound_name & smiles & ->) _ IH ]; intros cols.
  - intros [-> | [_ H]]; [ reflexivity | congruence ].
  - intros Hcols. cbn [fold_left]. apply IH. left.
    destruct Hcols as [-> | [-> _]]; reflexivity.
Qed.

Section BatchExtras.

Variable py_str : pyval -> string.
Variable net : nat -> string -> http_result.
Variable sleep_raises : nat -> float -> option exn.

(** X7. The table of a batch of one name or more has exactly the three
    columns Compound_Name, SMILES and Status, in that order. *)
Theorem batch_get_smiles_three_columns compound_names delay n df :
  compound_names <> [] ->
  fst (batch_get_smiles py_str net sleep_raises compound_names delay n) = Return df ->
  columns df = ["Compound_Name"; "SMILES"; "Status"].
Proof.
  intros Hnames. rewrite batch_get_smiles_run.
  destruct (batch_loop _ _ _ _ _ _ _ _ _) as [[results | e] evs] eqn:Hloop; [ | discriminate ].
  cbn. intros [= <-].
  destruct (batch_loop_rows py_str net sleep_raises compound_names _ _ _ _ _ results
              (f_equal fst Hloop)) as (rows & -> & Hrows).
  cbn [app pd_DataFrame columns].
  apply columns_of_result_rows.
  - apply (Forall2_Forall_right _ _ _ _ Hrows).
    intros name row (smiles & n' & _ & ->). now exists name, smiles.
  - right. split; [ reflexivity | ].
    destruct Hrows; [ congruence | discriminate ].
Qed.

End BatchExtras.

Lemma batch_get_smiles_three_columns_witness :
  fst (batch_get_smiles str_scalar mesitylene_net cpython_sleep_raises ["undecane"] default_delay 0)
  = Return (pd_DataFrame [result_row "undecane" PNone])
  /\ columns (pd_DataFrame [result_row "undecane" PNone])
     = ["Compound_Name"; "SMILES"; "Status"].
Proof.
  split; [ reflexivity | ].
  apply (batch_get_smiles_three_columns str_scalar mesitylene_net
           cpython_sleep_raises ["undecane"] default_delay 0).
  - discriminate.
  - reflexivity.
Defined.

Lemma progress_lines_app evs1 evs2 :
  progress_lines (evs1 ++ evs2) = progress_lines evs1 ++ progress_lines evs2.
Proof.
  induction evs1 as [ | [ [ | | | | ] | url t | secs ] evs1 IH ]; cbn; rewrite ?IH; reflexivity.
Qed.

Lemma progress_lines_none evs :
  Forall (fun ev => match ev with Print (MsgProgress _ _ _) => False | _ => True end) evs ->
  progress_lines evs = [].
Proof.
  induction 1 as [ | ev evs Hev _ IH ]; [ reflexivity | ].
  destruct ev as [ m | url t | secs ]; [ destruct m | | ]; cbn; try exact IH.
  contradiction Hev.
Qed.

Lemma without_sleeps_app evs1 evs2 :
  without_sleeps (evs1 ++ evs2) = without_sleeps evs1 ++ without_sleeps evs2.
Proof. apply filter_app. Qed.

Section BatchRuns.

Variable py_str : pyval -> string.
Variable net : nat -> string -> http_result.
Variable sleep_raises : nat -> float -> option exn.

Lemma get_smiles_no_progress_line compound_name n :
  progress_lines (snd (get_smiles_from_pubchem py_str net compound_name n)) = [].
Proof.
  apply progress_lines_none.
  now apply (get_smiles_emits_only py_str net compound_name).
Qed.

Lemma batch_loop_progress rest : forall total delay i results n,
  exists k,
    progress_lines (snd (batch_loop py_str net sleep_raises total delay i rest results n))
    = firstn k (progress_from total i rest)
    /\ (forall rs,
          fst (batch_loop py_str net sleep_raises total delay i rest results n) = Return rs ->
          progress_lines (snd (batch_loop py_str net sleep_raises total delay i rest results n))
          = progress_from total i rest).
Proof.
  induction rest as [ | compound_name rest' IH ]; intros total delay i results n.
  - exists 0. split; reflexivity.
  - rewrite batch_loop_cons.
    pose proof (get_smiles_no_progress_line compound_name n) as Hquiet.
    destruct (get_smiles_from_pubchem py_str net compound_name n) as [[smiles | e] evs];
      cbn [snd] in Hquiet.
    + destruct (IH total delay (S i) (results ++ [result_row compound_name smiles])
                  (n + requests_in evs)) as (k & Hk & Hall).
      destruct (i <? total)%nat; [ destruct (sleep_raises _ delay) | ]; cbn [fst snd].
      * exists 1. cbn. rewrite Hquiet. split; [ reflexivity | discriminate ].
      * exists (S k). cbn [progress_lines progress_from firstn].
        rewrite progress_lines_app, Hquiet. cbn. rewrite Hk.
        split; [ reflexivity | ]. intros rs Hrs. now rewrite <- Hk, (Hall rs Hrs).
      * exists (S k). cbn [progress_lines progress_from firstn].
        rewrite progress_lines_app, Hquiet. cbn. rewrite Hk.
        split; [ reflexivity | ]. intros rs Hrs. now rewrite <- Hk, (Hall rs Hrs).
    + exists 1. cbn. rewrite Hquiet. split; [ reflexivity | discriminate ].
Qed.

(** X8. A batch prints one progress line per name it gets to, before the
    lookup of that name, numbered from 1 and showing the number of names: the
    progress lines of a run are an initial part of the lines
    [1/n: name_1], ..., [n/n: name_n], and all of them when the run returns. *)
Theorem batch_get_smiles_progress_lines compound_names delay n :
  exists k,
    progress_lines (snd (batch_get_smiles py_str net sleep_raises compound_names delay n))
    = firstn k (progress_from (List.length compound_names) 1 compound_names)
    /\ (forall df,
          fst (batch_get_smiles py_str net sleep_raises compound_names delay n) = Return df ->
          progress_lines (snd (batch_get_smiles py_str net sleep_raises compound_names delay n))
          = progress_from (List.length compound_names) 1 compound_names).
Proof.
  rewrite batch_get_smiles_run.
  destruct (batch_loop_progress compound_names (List.length compound_names) delay 1 [] n)
    as (k & Hk & Hall).
  exists k.
  destruct (batch_loop _ _ _ _ _ _ _ _ _) as [[results | e] evs]; cbn [fst snd] in *.
  - split; [ exact Hk | ]. intros df _. now apply (Hall results).
  - split; [ exact Hk | discriminate ].
Qed.

(** The loop under two delays that [time.sleep] takes at every moment:
    the same outcome, the same events but for the sleeps. *)
Lemma batch_loop_delay rest : forall total delay1 delay2 i results n,
  (forall n', sleep_raises n' delay1 = None) ->
  (forall n', sleep_raises n' delay2 = None) ->
  fst (batch_loop py_str net sleep_raises total delay1 i rest results n)
  = fst (batch_loop py_str net sleep_raises total delay2 i rest results n)
  /\ without_sleeps (snd (batch_loop py_str net sleep_raises total delay1 i rest results n))
     = without_sleeps (snd (batch_loop py_str net sleep_raises total delay2 i rest results n)).
Proof.
  induction rest as [ | compound_name rest' IH ];
    intros total delay1 delay2 i results n H1 H2.
  - split; reflexivity.
  - rewrite !batch_loop_cons.
    destruct (get_smiles_from_pubchem py_str net compound_name n) as [[smiles | e] evs];
      [ | split; reflexivity ].
    rewrite H1, H2.
    destruct (IH total delay1 delay2 (S i) (results ++ [result_row compound_name smiles])
                (n + requests_in evs) H1 H2) as [Hfst Hsnd].
    destruct (i <? total)%nat; cbn [fst snd]; (split; [ exact Hfst | ]).
    + change (Print (MsgProgress i total compound_name) :: evs ++ Sleep delay1 :: ?x)
        with (Print (MsgProgress i total compound_name) :: evs ++ [Sleep delay1] ++ x).
      unfold without_sleeps in *. cbn [filter is_sleep negb].
      rewrite !filter_app. cbn [filter is_sleep negb app]. now rewrite Hsnd.
    + unfold without_sleeps in *. cbn [filter is_sleep negb].
      rewrite !filter_app. now rewrite Hsnd.
Qed.

(** X9. The delay paces a batch and does nothing else: under two delays
    each of which [time.sleep] takes at every moment of the run, and with
    a service that answers the requests alike, a batch has the same
    outcome, the same table, and the same events but for the sleeps. *)
Theorem batch_get_smiles_delay_only_paces compound_names delay1 delay2 n :
  (forall n', sleep_raises n' delay1 = None) ->
  (forall n', sleep_raises n' delay2 = None) ->
  fst (batch_get_smiles py_str net sleep_raises compound_names delay1 n)
  = fst (batch_get_smiles py_str net sleep_raises compound_names delay2 n)
  /\ without_sleeps (snd (batch_get_smiles py_str net sleep_raises compound_names delay1 n))
     = without_sleeps (snd (batch_get_smiles py_str net sleep_raises compound_names delay2 n)).
Proof.
  intros H1 H2. rewrite !batch_get_smiles_run.
  destruct (batch_loop_delay compound_names (List.length compound_names)
              delay1 delay2 1 [] n H1 H2) as [Hfst Hsnd].
  destruct (batch_loop py_str net sleep_raises _ delay1 _ _ _ _) as [[results1 | e1] evs1];
    destruct (batch_loop py_str net sleep_raises _ delay2 _ _ _ _) as [[results2 | e2] evs2];
    cbn [fst snd] in *; try discriminate;
    injection Hfst as <-; (split; [ reflexivity | ]);
    unfold without_sleeps in *; cbn [filter is_sleep negb]; now rewrite Hsnd.
Qed.

End BatchRuns.

Lemma batch_get_smiles_progress_lines_witness :
  progress_lines (snd (batch_get_smiles str_scalar mesitylene_net cpython_sleep_raises
                         ["mesitylene"; "undecane"] default_delay 0))
  = [MsgProgress 1 2 "mesitylene"; MsgProgress 2 2 "undecane"].
Proof.
  destruct (batch_get_smiles_progress_lines str_scalar mesitylene_net
              cpython_sleep_raises ["mesitylene"; "undecane"] default_delay 0)
    as (k & _ & Hall).
  exact (Hall _ eq_refl).
Defined.

Lemma batch_get_smiles_delay_only_paces_witness :
  (forall n', cpython_sleep_raises n' default_delay = None)
  /\ (forall n', cpython_sleep_raises n' PrimFloat.zero = None)
  /\ fst (batch_get_smiles str_scalar mesitylene_net cpython_sleep_raises
            ["mesitylene"; "undecane"] default_delay 0)
     = fst (batch_get_smiles str_scalar mesitylene_net cpython_sleep_raises
              ["mesitylene"; "undecane"] PrimFloat.zero 0).
Proof.
  split; [ intros n'; reflexivity | ]. split; [ intros n'; reflexivity | ].
  apply (batch_get_smiles_delay_only_paces str_scalar mesitylene_net
           cpython_sleep_raises ["mesitylene"; "undecane"] default_delay PrimFloat.zero 0);
    intros n'; reflexivity.
Defined.

(** *** A service whose answers do not change with time *)

Lemma timeless_ret {A} (a : A) : timeless (ret a).
Proof. intros n. reflexivity. Qed.

Lemma timeless_raise {A} e : timeless (@raise A e).
Proof. intros n. reflexivity. Qed.

Lemma timeless_emit ev : timeless (emit ev).
Proof. intros n. reflexivity. Qed.

Lemma timeless_bind {A B} (m : M A) (k : A -> M B) :
  timeless m -> (forall a, timeless (k a)) -> timeless (bind m k).
Proof.
  intros Hm Hk n. unfold bind. rewrite (Hm n).
  destruct (m 0) as [[a | e] evs]; [ | reflexivity ].
  now rewrite (Hk a (n + requests_in evs)), (Hk a (0 + requests_in evs)).
Qed.

Lemma timeless_try {A} (m : M A) catches handler :
  timeless m -> (forall e, timeless (handler e)) -> timeless (try_except m catches handler).
Proof.
  intros Hm Hh n. unfold try_except. rewrite (Hm n).
  destruct (m 0) as [[a | e] evs]; [ reflexivity | ].
  destruct (catches e); [ | reflexivity ].
  now rewrite (Hh e (n + requests_in evs)), (Hh e (0 + requests_in evs)).
Qed.

Lemma timeless_getitem_str v key : timeless (getitem_str v key).
Proof. intros n. now rewrite !getitem_str_run. Qed.

Lemma timeless_getitem_0 v : timeless (getitem_0 v).
Proof. intros n. destruct v as [ | | | | [ | ] | [ | ] | ]; reflexivity. Qed.

Lemma timeless_contains key v : timeless (contains key v).
Proof. intros n. destruct v; reflexivity. Qed.

Lemma timeless_raise_for_status r : timeless (raise_for_status r).
Proof. intros n. unfold raise_for_status. now destruct (_ && _). Qed.

Lemma timeless_json r : timeless (json r).
Proof. intros n. unfold json. destruct (body r); [ | destruct (why_not r) ]; reflexivity. Qed.

#[local] Hint Resolve timeless_ret timeless_raise timeless_emit timeless_getitem_str
  timeless_getitem_0 timeless_contains timeless_raise_for_status timeless_json : effects.

Section SteadyService.

Variable py_str : pyval -> string.
Variable net : nat -> string -> http_result.
Variable sleep_raises : nat -> float -> option exn.
Hypothesis steady : forall n url, net n url = net 0 url.

Lemma timeless_requests_get url timeout : timeless (requests_get net url timeout).
Proof. intros n. rewrite !requests_get_run. now rewrite (steady n url). Qed.

Lemma timeless_pick_smiles compound_name properties :
  timeless (pick_smiles compound_name properties).
Proof.
  unfold pick_smiles, print.
  apply timeless_bind; [ auto with effects | intros [ | ] ]; [ auto with effects | ].
  apply timeless_bind; [ auto with effects | intros [ | ] ]; [ auto with effects | ].
  apply timeless_bind; auto with effects.
Qed.

Lemma timeless_get_smiles compound_name :
  timeless (get_smiles_from_pubchem py_str net compound_name).
Proof.
  unfold get_smiles_from_pubchem, get_cid, get_properties, print.
  apply timeless_try.
  - apply timeless_bind; [ | intros cid; apply timeless_bind;
                             [ | intros properties; apply timeless_pick_smiles ] ];
      repeat (apply timeless_bind; [ | intros ? ]);
      auto using timeless_requests_get with effects.
  - intros e. apply timeless_bind; auto with effects.
Qed.

(** X10. For a service whose answers depend on the URL alone, the table
    of a batch is what [pd.DataFrame] makes of the lookup mapped over the
    names: it is built from one dict per name, in the order of the names,
    the dict of the [i]-th name holding what a lookup of that name, made at
    any moment, returns.  A name given twice gets the same dict twice. *)
Theorem batch_get_smiles_maps_lookup compound_names delay n df :
  fst (batch_get_smiles py_str net sleep_raises compound_names delay n) = Return df ->
  exists results,
    df = pd_DataFrame results
    /\ Forall2 (fun compound_name row =>
                  exists smiles,
                    (forall n', fst (get_smiles_from_pubchem py_str net compound_name n')
                                = Return smiles)
                    /\ row = [("Compound_Name", PStr compound_name);
                              ("SMILES", smiles);
                              ("Status",
                               PStr (if py_truthy smiles then "Found" else "Not Found"))])
               compound_names results.
Proof.
  rewrite batch_get_smiles_run.
  destruct (batch_loop _ _ _ _ _ _ _ _ _) as [[results | e] evs] eqn:Hloop; [ | discriminate ].
  cbn. intros [= <-]. exists results. split; [ reflexivity | ].
  destruct (batch_loop_rows py_str net sleep_raises compound_names _ _ _ _ _ results
              (f_equal fst Hloop)) as (rows & -> & Hrows).
  cbn [app]. clear Hloop.
  induction Hrows as [ | name row names rows (smiles & n0 & Hrun & ->) _ IH ];
    [ constructor | ].
  constructor; [ | exact IH ].
  exists smiles. split; [ | reflexivity ].
  intros n'. rewrite (timeless_get_smiles name n'). now rewrite <- (timeless_get_smiles name n0).
Qed.

End SteadyService.

Lemma batch_get_smiles_maps_lookup_witness :
  exists results,
    pd_DataFrame [result_row "undecane" PNone; result_row "undecane" PNone]
    = pd_DataFrame results
    /\ Forall2 (fun compound_name row =>
                  exists smiles,
                    (forall n', fst (get_smiles_from_pubchem str_scalar mesitylene_net
                                       compound_name n') = Return smiles)
                    /\ row = [("Compound_Name", PStr compound_name);
                              ("SMILES", smiles);
                              ("Status",
                               PStr (if py_truthy smiles then "Found" else "Not Found"))])
               ["undecane"; "undecane"] results.
Proof.
  apply (batch_get_smiles_maps_lookup str_scalar mesitylene_net cpython_sleep_raises
           (fun n url => eq_refl) ["undecane"; "undecane"] default_delay 0
           (pd_DataFrame [result_row "undecane" PNone; result_row "undecane" PNone])).
  reflexivity.
Defined.

(** *** Requests, failures and the delay *)

Section BatchBounds.

Variable py_str : pyval -> string.
Variable net : nat -> string -> http_result.
Variable sleep_raises : nat -> float -> option exn.

Lemma get_smiles_requests_in_ge_1 compound_name n :
  1 <= requests_in (snd (get_smiles_from_pubchem py_str net compound_name n)).
Proof.
  pose proof (get_smiles_first_request py_str net compound_name n) as H.
  rewrite requests_in_gets.
  induction (snd (get_smiles_from_pubchem py_str net compound_name n))
    as [ | [ m | url t | secs ] evs IH ]; cbn in *.
  - discriminate H.
  - now apply IH.
  - lia.
  - now apply IH.
Qed.

Lemma requests_in_app evs1 evs2 :
  requests_in (evs1 ++ evs2) = requests_in evs1 + requests_in evs2.
Proof. unfold requests_in. now rewrite filter_app, length_app. Qed.

Lemma requests_in_print m evs : requests_in (Print m :: evs) = requests_in evs.
Proof. reflexivity. Qed.

Lemma requests_in_sleep secs evs : requests_in (Sleep secs :: evs) = requests_in evs.
Proof. reflexivity. Qed.

Lemma batch_loop_requests rest : forall total delay i results n,
  requests_in (snd (batch_loop py_str net sleep_raises total delay i rest results n))
  <= 2 * List.length rest
  /\ (forall rs,
        fst (batch_loop py_str net sleep_raises total delay i rest results n) = Return rs ->
        List.length rest
        <= requests_in (snd (batch_loop py_str net sleep_raises total delay i rest results n))).
Proof.
  induction rest as [ | compound_name rest' IH ]; intros total delay i results n.
  - cbn. split; [ lia | intros; lia ].
  - rewrite batch_loop_cons.
    pose proof (get_smiles_requests_in_le_2 py_str net compound_name n) as Hle.
    pose proof (get_smiles_requests_in_ge_1 compound_name n) as Hge.
    destruct (get_smiles_from_pubchem py_str net compound_name n) as [[smiles | e] evs];
      cbn [snd] in Hle, Hge.
    + destruct (IH total delay (S i) (results ++ [result_row compound_name smiles])
                  (n + requests_in evs)) as [Hup Hlow].
      destruct (i <? total)%nat; [ destruct (sleep_raises _ delay) | ];
        cbn [fst snd List.length];
        rewrite requests_in_print, ?requests_in_app, ?requests_in_sleep.
      * split; [ lia | discriminate ].
      * split; [ lia | ]. intros rs Hrs. specialize (Hlow rs Hrs). lia.
      * split; [ lia | ]. intros rs Hrs. specialize (Hlow rs Hrs). lia.
    + cbn [fst snd List.length]. rewrite requests_in_print.
      split; [ lia | discriminate ].
Qed.

(** X11. A batch of [n] names makes at most [2 n] requests, and a batch
    that returns its table has made at least [n]: there is no retry, and no
    name is skipped. *)
Theorem batch_get_smiles_request_budget compound_names delay n :
  List.length (gets (snd (batch_get_smiles py_str net sleep_raises compound_names delay n)))
  <= 2 * List.length compound_names
  /\ (forall df,
        fst (batch_get_smiles py_str net sleep_raises compound_names delay n) = Return df ->
        List.length compound_names
        <= List.length (gets (snd (batch_get_smiles py_str net sleep_raises compound_names delay n)))).
Proof.
  rewrite batch_get_smiles_run.
  destruct (batch_loop_requests compound_names (List.length compound_names) delay 1 [] n)
    as [Hup Hlow].
  rewrite requests_in_gets in Hup.
  destruct (batch_loop _ _ _ _ _ _ _ _ _) as [[results | e] evs]; cbn [fst snd gets] in *.
  - split; [ exact Hup | ]. intros df _. rewrite <- requests_in_gets. now apply (Hlow results).
  - split; [ exact Hup | discriminate ].
Qed.


(** X13. The delay is looked at only when it is used.  A batch of one
    name never calls [time.sleep]: it runs the same under any delay.  A
    batch of two names or more, once its first lookup has returned, calls
    [time.sleep] with the delay, and when that call raises, the batch stops
    there with the exception of [time.sleep], before the second name and
    without a table. *)
Theorem batch_get_smiles_refused_delay delay n :
  (forall compound_name delay',
      batch_get_smiles py_str net sleep_raises [compound_name] delay n
      = batch_get_smiles py_str net sleep_raises [compound_name] delay' n)
  /\ (forall first second rest v e,
        fst (get_smiles_from_pubchem py_str net first n) = Return v ->
        sleep_raises (n + requests_in (snd (get_smiles_from_pubchem py_str net first n)))
          delay = Some e ->
        batch_get_smiles py_str net sleep_raises (first :: second :: rest) delay n
        = (Raise e,
           Print (MsgProcessing (2 + List.length rest))
             :: Print (MsgProgress 1 (2 + List.length rest) first)
             :: snd (get_smiles_from_pubchem py_str net first n))).
Proof.
  split.
  - intros compound_name delay'. rewrite !batch_get_smiles_run, !batch_loop_cons.
    destruct (get_smiles_from_pubchem py_str net compound_name n) as [[smiles | e] evs];
      reflexivity.
  - intros first second rest v e Hv. rewrite batch_get_smiles_run, batch_loop_cons.
    destruct (get_smiles_from_pubchem py_str net first n) as [[smiles | e'] evs];
      [ | discriminate ].
    cbn [List.length Nat.ltb Nat.leb snd]. intros Hsleep. rewrite Hsleep. reflexivity.
Qed.

End BatchBounds.


Lemma batch_get_smiles_refused_delay_witness :
  cpython_sleep_raises 2 PrimFloat.infinity = Some OverflowError
  /\ fst (batch_get_smiles str_scalar mesitylene_net cpython_sleep_raises
            ["mesitylene"; "undecane"] PrimFloat.infinity 0)
     = Raise OverflowError.
Proof.
  split; [ reflexivity | ].
  destruct (batch_get_smiles_refused_delay str_scalar mesitylene_net cpython_sleep_raises
              PrimFloat.infinity 0) as [_ Hstop].
  rewrite (Hstop "mesitylene" "undecane" [] (PStr "CC1=CC(=CC(=C1)C)C") OverflowError
             eq_refl eq_refl).
  reflexivity.
Defined.

Lemma batch_get_smiles_request_budget_witness :
  3 <= List.length (gets (snd (batch_get_smiles str_scalar mesitylene_net cpython_sleep_raises
                                 ["mesitylene"; "undecane"; "undecane"] default_delay 0))).
Proof.
  destruct (batch_get_smiles_request_budget str_scalar mesitylene_net cpython_sleep_raises
              ["mesitylene"; "undecane"; "undecane"] default_delay 0) as [_ Hlow].
  exact (Hlow _ eq_refl).
Defined.

(** *** A service that cannot be reached *)

Section UnreachableService.

Variable py_str : pyval -> string.
Variable net : nat -> string -> http_result.
Variable sleep_raises : nat -> float -> option exn.
Hypothesis down : unreachable net.

Lemma get_smiles_unreachable compound_name n :
  get_smiles_from_pubchem py_str net compound_name n
  = (Return PNone,
     [HttpGet (cid_url compound_name) 10;
      Print (MsgError compound_name RequestException)]).
Proof.
  rewrite (get_smiles_cid_fails py_str net compound_name n RequestException);
    [ reflexivity | ].
  destruct (down n (cid_url compound_name)) as [Hnone | (r & Hr & Hlo & Hhi)].
  - now apply get_cid_no_response.
  - rewrite (get_cid_responded net compound_name n r Hr).
    apply Z.leb_le in Hlo. apply Z.ltb_lt in Hhi. now rewrite Hlo, Hhi.
Qed.

Lemma batch_loop_unreachable rest : forall total delay i results n,
  (forall n', sleep_raises n' delay = None) ->
  fst (batch_loop py_str net sleep_raises total delay i rest results n)
  = Return (results ++ map (fun compound_name => result_row compound_name PNone) rest)
  /\ gets (snd (batch_loop py_str net sleep_raises total delay i rest results n))
     = map (fun compound_name => (cid_url compound_name, 10%Z)) rest.
Proof.
  induction rest as [ | compound_name rest' IH ]; intros total delay i results n Hdelay.
  - cbn. now rewrite app_nil_r.
  - rewrite batch_loop_cons, get_smiles_unreachable, Hdelay.
    destruct (IH total delay (S i) (results ++ [result_row compound_name PNone])
                (n + requests_in [HttpGet (cid_url compound_name) 10;
                                  Print (MsgError compound_name RequestException)]) Hdelay)
      as [Hfst Hsnd].
    destruct (i <? total)%nat; cbn [fst snd]; rewrite Hfst;
      (split; [ now rewrite <- app_assoc | ]); cbn [gets app map]; now rewrite Hsnd.
Qed.

(** X14. When no request gets through and [time.sleep] takes the delay at
    every moment, a batch still runs to its end: it asks once for each name,
    in order, and returns the table that [pd.DataFrame] builds from one dict
    per name with SMILES [None] and Status 'Not Found'. *)
Theorem batch_get_smiles_unreachable compound_names delay n :
  (forall n', sleep_raises n' delay = None) ->
  fst (batch_get_smiles py_str net sleep_raises compound_names delay n)
  = Return (pd_DataFrame
              (map (fun compound_name =>
                      [("Compound_Name", PStr compound_name); ("SMILES", PNone);
                       ("Status", PStr "Not Found")]) compound_names))
  /\ gets (snd (batch_get_smiles py_str net sleep_raises compound_names delay n))
     = map (fun compound_name => (cid_url compound_name, 10%Z)) compound_names.
Proof.
  intros Hdelay. rewrite batch_get_smiles_run.
  destruct (batch_loop_unreachable compound_names (List.length compound_names)
              delay 1 [] n Hdelay) as [Hfst Hsnd].
  destruct (batch_loop _ _ _ _ _ _ _ _ _) as [[results | e] evs]; cbn [fst snd gets] in *;
    [ | discriminate ].
  injection Hfst as ->. split; [ reflexivity | exact Hsnd ].
Qed.

End UnreachableService.

Lemma batch_get_smiles_unreachable_witness :
  unreachable dead_net
  /\ (forall n', cpython_sleep_raises n' default_delay = None)
  /\ fst (batch_get_smiles str_scalar dead_net cpython_sleep_raises
            ["mesitylene"; "undecane"] default_delay 0)
     = Return (pd_DataFrame
                 [[("Compound_Name", PStr "mesitylene"); ("SMILES", PNone);
                   ("Status", PStr "Not Found")];
                  [("Compound_Name", PStr "undecane"); ("SMILES", PNone);
                   ("Status", PStr "Not Found")]]).
Proof.
  assert (Hdown : unreachable dead_net) by (intros n url; now left).
  split; [ exact Hdown | ]. split; [ intros n'; reflexivity | ].
  apply (batch_get_smiles_unreachable str_scalar dead_net cpython_sleep_raises Hdown
           ["mesitylene"; "undecane"] default_delay 0).
  intros n'. reflexivity.
Defined.

(** ** Names from a file *)

Lemma length_append s1 s2 :
  String.length (s1 ++ s2) = String.length s1 + String.length s2.
Proof. induction s1 as [ | c s1 IH ]; cbn; [ | rewrite IH ]; reflexivity. Qed.

Lemma append_assoc s1 s2 s3 : ((s1 ++ s2) ++ s3 = s1 ++ (s2 ++ s3))%string.
Proof. induction s1 as [ | c s1 IH ]; cbn; [ | rewrite IH ]; reflexivity. Qed.

Lemma append_nil_r s : (s ++ "")%string = s.
Proof. induction s as [ | c s IH ]; cbn; [ | rewrite IH ]; reflexivity. Qed.

(** The first byte of a white space character of two or three bytes is
    the first byte of no other. *)
Lemma is_space2_lead c1 c2 : is_space2 c1 c2 = true -> is_space c1 = false.
Proof.
  destruct c1 as [[] [] [] [] [] [] [] []]; intros H; try reflexivity;
    vm_compute in H; discriminate H.
Qed.

Lemma is_space3_lead c1 c2 c3 :
  is_space3 c1 c2 c3 = true ->
  is_space c1 = false /\ forall c, is_space2 c1 c = false.
Proof.
  destruct c1 as [[] [] [] [] [] [] [] []]; intros H;
    try (split; [ reflexivity | intros c; reflexivity ]);
    vm_compute in H; discriminate H.
Qed.

Lemma lstrip_String c1 s1 :
  lstrip (String c1 s1)
  = if is_space c1 then lstrip s1
    else match s1 with
         | EmptyString => String c1 s1
         | String c2 s2 =>
             if is_space2 c1 c2 then lstrip s2
             else match s2 with
                  | EmptyString => String c1 s1
                  | String c3 s3 =>
                      if is_space3 c1 c2 c3 then lstrip s3 else String c1 s1
                  end
         end.
Proof. destruct s1 as [ | c2 [ | c3 s3 ] ]; reflexivity. Qed.

Lemma space_char_lstrip w t : space_char w = true -> lstrip (w ++ t) = lstrip t.
Proof.
  destruct w as [ | c1 [ | c2 [ | c3 [ | c4 w ] ] ] ]; cbn [space_char]; try discriminate;
    intros H; cbn [append]; rewrite lstrip_String.
  - now rewrite H.
  - now rewrite (is_space2_lead _ _ H), H.
  - destruct (is_space3_lead _ _ _ H) as [H1 H2]. now rewrite H1, H2, H.
Qed.

Lemma space_char_starts w t : space_char w = true -> starts_with_space (w ++ t) = true.
Proof.
  destruct w as [ | c1 [ | c2 [ | c3 [ | c4 w ] ] ] ]; cbn [space_char]; try discriminate;
    intros H; cbn [append starts_with_space]; rewrite H;
    rewrite ?orb_true_r; reflexivity.
Qed.

Lemma space_char_length w : space_char w = true -> 1 <= String.length w.
Proof. destruct w; cbn; [ discriminate | lia ]. Qed.

Lemma starts_with_space_split s :
  starts_with_space s = true ->
  exists w rest, s = (w ++ rest)%string /\ space_char w = true.
Proof.
  destruct s as [ | c1 s1 ]; cbn [starts_with_space]; [ discriminate | ].
  destruct (is_space c1) eqn:H1.
  { intros _. now exists (String c1 ""), s1. }
  destruct s1 as [ | c2 s2 ]; cbn [orb]; [ discriminate | ].
  destruct (is_space2 c1 c2) eqn:H2.
  { intros _. now exists (String c1 (String c2 "")), s2. }
  destruct s2 as [ | c3 s3 ]; cbn [orb]; [ discriminate | ].
  intros H3. now exists (String c1 (String c2 (String c3 ""))), s3.
Qed.

Lemma lstrip_no_space s : starts_with_space s = false -> lstrip s = s.
Proof.
  destruct s as [ | c1 s1 ]; [ reflexivity | ].
  cbn [starts_with_space]. rewrite lstrip_String.
  destruct (is_space c1); [ discriminate | ].
  destruct s1 as [ | c2 s2 ]; [ reflexivity | ].
  destruct (is_space2 c1 c2); [ discriminate | ].
  destruct s2 as [ | c3 s3 ]; [ reflexivity | ].
  cbn [orb]. now intros ->.
Qed.

(** Strings are taken apart one white space character at a time. *)
Lemma space_prefix_ind (P : string -> Prop) :
  (forall s, starts_with_space s = false -> P s) ->
  (forall w rest, space_char w = true -> P rest -> P (w ++ rest)%string) ->
  forall s, P s.
Proof.
  intros Hstop Hstep s.
  assert (H : forall n s, String.length s <= n -> P s); [ | now apply (H (String.length s)) ].
  clear s. induction n as [ | n IH ]; intros s Hn.
  - destruct s; [ | cbn in Hn; lia ]. now apply Hstop.
  - destruct (starts_with_space s) eqn:Hs; [ | now apply Hstop ].
    destruct (starts_with_space_split s Hs) as (w & rest & -> & Hw).
    apply Hstep; [ exact Hw | ]. apply IH.
    rewrite length_append in Hn. pose proof (space_char_length w Hw). lia.
Qed.

Lemma lstrip_starts s : starts_with_space (lstrip s) = false.
Proof.
  induction s as [ s Hs | w rest Hw IH ] using space_prefix_ind.
  - now rewrite (lstrip_no_space s Hs).
  - now rewrite (space_char_lstrip w rest Hw).
Qed.

Lemma blank_app_l p t : blank p = true -> lstrip (p ++ t) = lstrip t.
Proof.
  unfold blank. induction p as [ s Hs | w rest Hw IH ] using space_prefix_ind.
  - rewrite (lstrip_no_space s Hs). intros H. apply String.eqb_eq in H. now subst s.
  - rewrite (space_char_lstrip w rest Hw), append_assoc, (space_char_lstrip w _ Hw).
    exact IH.
Qed.

(** What [rstrip] keeps and what it drops: the part dropped is white
    space, and the part kept does not end in white space. *)
Lemma rstrip_split s :
  exists t,
    s = (rstrip s ++ t)%string
    /\ blank t = true
    /\ forall p1 p2, rstrip s = (p1 ++ p2)%string -> p2 <> "" -> blank (p2 ++ t) = false.
Proof.
  induction s as [ | c s IH ].
  - exists "". split; [ reflexivity | ]. split; [ reflexivity | ].
    intros [ | c1 p1 ] p2; cbn; [ intros <- H; now contradiction H | discriminate ].
  - cbn [rstrip]. destruct (blank (String c s)) eqn:Hblank.
    + exists (String c s). split; [ reflexivity | ]. split; [ exact Hblank | ].
      intros [ | c1 p1 ] p2; cbn; [ intros <- H; now contradiction H | discriminate ].
    + destruct IH as (t & Hs & Ht & Hsplit). exists t.
      split; [ cbn; now rewrite <- Hs | ]. split; [ exact Ht | ].
      intros [ | c1 p1 ] p2; cbn [append].
      * intros <- _. cbn [append]. now rewrite <- Hs.
      * intros [= <- Hrest]. now apply Hsplit with (p1 := p1).
Qed.

Lemma rstrip_fixed p :
  (forall p1 p2, p = (p1 ++ p2)%string -> p2 <> "" -> blank p2 = false) ->
  rstrip p = p.
Proof.
  induction p as [ | c p IH ]; intros Hp; [ reflexivity | ].
  cbn [rstrip]. rewrite (Hp "" (String c p) eq_refl) by discriminate.
  f_equal. apply IH. intros p1 p2 -> Hp2. now apply (Hp (String c p1) p2).
Qed.

(** What stripping leaves: a string with no white space character at
    either end, which stripping again does not change. *)
Lemma strip_shape s :
  (forall w rest, space_char w = true -> strip s <> (w ++ rest)%string)
  /\ (forall w rest, space_char w = true -> strip s <> (rest ++ w)%string)
  /\ strip (strip s) = strip s.
Proof.
  unfold strip.
  destruct (rstrip_split (lstrip s)) as (t & Hs & Ht & Hsplit).
  assert (Hend : forall p1 p2, rstrip (lstrip s) = (p1 ++ p2)%string -> p2 <> "" ->
                               blank p2 = false).
  { intros p1 p2 Hp Hp2. destruct (blank p2) eqn:Hb; [ | reflexivity ].
    rewrite <- (Hsplit p1 p2 Hp Hp2). unfold blank. now rewrite (blank_app_l p2 t Hb). }
  assert (Hstart : forall w rest, space_char w = true ->
                                  rstrip (lstrip s) <> (w ++ rest)%string).
  { intros w rest Hw Heq. pose proof (lstrip_starts s) as Hno.
    rewrite Hs, Heq, append_assoc, (space_char_starts w _ Hw) in Hno. discriminate Hno. }
  split; [ exact Hstart | ]. split.
  - intros w rest Hw Heq.
    assert (Hb : blank w = true).
    { unfold blank. rewrite <- (append_nil_r w), (space_char_lstrip w "" Hw). reflexivity. }
    rewrite (Hend rest w Heq) in Hb; [ discriminate Hb | ].
    intros ->. discriminate Hw.
  - assert (Hl : lstrip (rstrip (lstrip s)) = rstrip (lstrip s)).
    { apply lstrip_no_space.
      destruct (starts_with_space (rstrip (lstrip s))) eqn:Hst; [ | reflexivity ].
      destruct (starts_with_space_split _ Hst) as (w & rest & Heq & Hw).
      now destruct (Hstart w rest Hw). }
    rewrite Hl. now apply rstrip_fixed.
Qed.

(** X15. Every name that [process_compounds_from_file] takes from a file is
    non-empty and has no white space character, of one byte or more, at
    its start or at its end; stripping it again changes nothing. *)
Theorem names_of_text_are_stripped text compound_name :
  In compound_name (names_of_text text) ->
  compound_name <> ""
  /\ strip compound_name = compound_name
  /\ (forall w rest, space_char w = true -> compound_name <> (w ++ rest)%string)
  /\ (forall w rest, space_char w = true -> compound_name <> (rest ++ w)%string).
Proof.
  unfold names_of_text. rewrite in_map_iff.
  intros (line & <- & Hline). apply filter_In in Hline. destruct Hline as [_ Hne].
  destruct (strip_shape line) as (Hstart & Hend & Hfixed).
  split; [ intros H; rewrite H in Hne; discriminate Hne | ].
  split; [ exact Hfixed | ]. split; [ exact Hstart | exact Hend ].
Qed.

Lemma names_of_text_are_stripped_witness :
  In "salt" (names_of_text ("water" ++ newline ++ newline ++ "  salt " ++ newline)%string)
  /\ strip "salt" = "salt".
Proof.
  assert (H : In "salt" (names_of_text
                           ("water" ++ newline ++ newline ++ "  salt " ++ newline)%string))
    by (right; left; reflexivity).
  split; [ exact H | ].
  apply (names_of_text_are_stripped _ _ H).
Defined.

(** The white space of more than one byte, and the two ways of ending a
    line other than the line feed. *)
Example names_of_wide_spaces :
  names_of_text
    (String "194" (String "160" "water") ++ String "013" ""
       ++ "salt" ++ String "226" (String "128" (String "131" ""))
       ++ String "013" newline ++ "sugar")%string
  = ["water"; "salt"; "sugar"].
Proof. reflexivity. Qed.

Lemma lines_from_line name : forall cur rest,
  ~ In "010"%char (chars name) ->
  ~ In "013"%char (chars name) ->
  lines_from cur (name ++ newline ++ rest)%string
  = (cur ++ name ++ newline)%string :: lines_from "" rest.
Proof.
  induction name as [ | c name IH ]; intros cur rest Hlf Hcr.
  - reflexivity.
  - cbn [append lines_from].
    destruct (Ascii.eqb c "010") eqn:Hc.
    { apply Ascii.eqb_eq in Hc. subst c. exfalso. apply Hlf. now left. }
    destruct (Ascii.eqb c "013") eqn:Hc'.
    { apply Ascii.eqb_eq in Hc'. subst c. exfalso. apply Hcr. now left. }
    rewrite IH; [ | intros H; apply Hlf; now right | intros H; apply Hcr; now right ].
    f_equal. now rewrite append_assoc.
Qed.

Lemma readlines_unlines names :
  Forall (fun name => ~ In "010"%char (chars name) /\ ~ In "013"%char (chars name)) names ->
  readlines (unlines names) = map (fun name => (name ++ newline)%string) names.
Proof.
  unfold readlines. induction 1 as [ | name names [Hlf Hcr] _ IH ]; [ reflexivity | ].
  cbn [unlines map]. rewrite lines_from_line by assumption. now rewrite IH.
Qed.

(** A line feed after a string that does not begin with white space makes
    no white space at its beginning. *)
Lemma starts_with_space_newline s :
  s <> "" ->
  starts_with_space s = false ->
  starts_with_space (s ++ newline) = false.
Proof.
  destruct s as [ | c1 s1 ]; [ congruence | intros _ ].
  cbn [starts_with_space append]. destruct (is_space c1); [ discriminate | ].
  destruct s1 as [ | c2 s2 ].
  { intros _. cbn. unfold is_space2. cbn. now rewrite andb_false_r. }
  cbn [append orb]. destruct (is_space2 c1 c2); [ discriminate | ].
  destruct s2 as [ | c3 s3 ]; [ | exact (fun H => H) ].
  intros _. cbn. unfold is_space3. cbn. now rewrite !andb_false_r.
Qed.

Lemma lstrip_app_newline s :
  lstrip (s ++ newline) = if blank s then "" else (lstrip s ++ newline)%string.
Proof.
  unfold blank. induction s as [ s Hs | w rest Hw IH ] using space_prefix_ind.
  - rewrite (lstrip_no_space s Hs). destruct s as [ | c s ]; [ reflexivity | ].
    cbn [String.eqb]. apply lstrip_no_space.
    now apply starts_with_space_newline.
  - now rewrite append_assoc, !(space_char_lstrip w _ Hw).
Qed.

Lemma blank_app_newline s : blank (s ++ newline) = blank s.
Proof.
  unfold blank at 1. rewrite lstrip_app_newline.
  destruct (blank s); [ reflexivity | ].
  now destruct (lstrip s).
Qed.

Lemma rstrip_app_newline s : rstrip (s ++ newline) = rstrip s.
Proof.
  induction s as [ | c s IH ]; [ reflexivity | ].
  cbn [append rstrip].
  change (String c (s ++ newline))%string with (String c s ++ newline)%string.
  now rewrite blank_app_newline, IH.
Qed.

Lemma strip_plain_line name : plain_name name -> strip (name ++ newline) = name.
Proof.
  intros (Hne & Hstrip & _).
  destruct (strip_shape name) as (Hstart & _ & _). rewrite Hstrip in Hstart.
  assert (Hno : starts_with_space name = false).
  { destruct (starts_with_space name) eqn:Hst; [ | reflexivity ].
    destruct (starts_with_space_split _ Hst) as (w & rest & Heq & Hw).
    now destruct (Hstart w rest Hw). }
  unfold strip. rewrite lstrip_app_newline. unfold blank.
  rewrite (lstrip_no_space name Hno).
  apply String.eqb_neq in Hne. rewrite Hne.
  rewrite rstrip_app_newline.
  unfold strip in Hstrip. now rewrite (lstrip_no_space name Hno) in Hstrip.
Qed.

(** X16. Read back from a file that holds them one per line, plain names
    come out as they went in: the same names, in the same order. *)
Theorem names_of_text_unlines compound_names :
  Forall plain_name compound_names ->
  names_of_text (unlines compound_names) = compound_names.
Proof.
  intros Hnames. unfold names_of_text.
  rewrite readlines_unlines
    by (eapply Forall_impl; [ | exact Hnames ]; now intros name (_ & _ & H)).
  induction Hnames as [ | name names Hname _ IH ]; [ reflexivity | ].
  cbn [map filter]. rewrite (strip_plain_line name Hname).
  pose proof Hname as (Hne & _). apply String.eqb_neq in Hne. rewrite Hne.
  cbn [negb map]. now rewrite (strip_plain_line name Hname), IH.
Qed.

Lemma names_of_text_unlines_witness :
  Forall plain_name ["methyl oleate"; "undecane"]
  /\ names_of_text ("methyl oleate" ++ newline ++ "undecane" ++ newline)%string
     = ["methyl oleate"; "undecane"].
Proof.
  assert (H : Forall plain_name ["methyl oleate"; "undecane"]).
  { repeat constructor; try discriminate; cbn; intuition discriminate. }
  split; [ exact H | ].
  exact (names_of_text_unlines ["methyl oleate"; "undecane"] H).
Defined.

Section FileExtras.

Variable py_str : pyval -> string.
Variable net : nat -> string -> http_result.
Variable fs : string -> open_result.
Variable sleep_raises : nat -> float -> option exn.

Lemma process_compounds_opened filename text n :
  fs filename = Opened text ->
  process_compounds_from_file py_str net fs sleep_raises filename n
  = match batch_get_smiles py_str net sleep_raises (names_of_text text) default_delay n with
    | (Raise FileNotFoundError, evs) =>
        (Return (pd_DataFrame []), evs ++ [Print (MsgFileNotFound filename)])
    | run => run
    end.
Proof.
  intros Hfs. unfold process_compounds_from_file, try_except, bind at 1, open_.
  rewrite Hfs. cbn [ret]. rewrite Nat.add_0_r. fold (names_of_text text).
  destruct (batch_get_smiles py_str net sleep_raises (names_of_text text) default_delay n)
    as [[df | e] evs]; [ reflexivity | ].
  destruct e; reflexivity.
Qed.

(** X17. On a file that opens, [process_compounds_from_file] is the batch
    of the names of the file under the default delay of 0.2 seconds: the same
    outcome, the same events.  Its handler does not come into play, a
    lookup raising no [FileNotFoundError], as long as [time.sleep] raises
    none either. *)
Theorem process_compounds_is_batch filename text n :
  fs filename = Opened text ->
  (forall n', sleep_raises n' default_delay <> Some FileNotFoundError) ->
  process_compounds_from_file py_str net fs sleep_raises filename n
  = batch_get_smiles py_str net sleep_raises (names_of_text text) default_delay n.
Proof.
  intros Hfs Hsleep. rewrite (process_compounds_opened filename text n Hfs).
  pose proof (batch_get_smiles_raises_only py_str net sleep_raises (names_of_text text)
                default_delay n) as Hraise.
  destruct (batch_get_smiles py_str net sleep_raises (names_of_text text) default_delay n)
    as [[df | e] evs]; cbn [fst] in *; [ reflexivity | ].
  destruct e; try reflexivity.
  destruct (Hraise FileNotFoundError eq_refl) as [[H | [H | H]] | [n' H]];
    try discriminate H.
  now destruct (Hsleep n').
Qed.


End FileExtras.

Lemma process_compounds_is_batch_witness :
  process_compounds_from_file str_scalar mesitylene_net
    (file_with ("mesitylene" ++ newline ++ newline ++ " undecane" ++ newline)%string)
    cpython_sleep_raises "compound_list.txt" 0
  = batch_get_smiles str_scalar mesitylene_net cpython_sleep_raises
      ["mesitylene"; "undecane"] default_delay 0.
Proof.
  apply (process_compounds_is_batch str_scalar mesitylene_net
           (file_with ("mesitylene" ++ newline ++ newline ++ " undecane" ++ newline)%string)
           cpython_sleep_raises "compound_list.txt"
           ("mesitylene" ++ newline ++ newline ++ " undecane" ++ newline)%string 0).
  - reflexivity.
  - intros n'. discriminate.
Defined.


(** ** The quoting of names *)

Lemma quote_char_length c :
  String.length (quote_char c) = if needs_quoting c then 3 else 1.
Proof. unfold quote_char, needs_quoting. now destruct (_ || _). Qed.

Lemma quote_length s :
  String.length (quote s)
  = String.length s + 2 * List.length (filter needs_quoting (chars s)).
Proof.
  induction s as [ | c s IH ]; [ reflexivity | ].
  cbn [quote]. rewrite length_append, quote_char_length, IH.
  unfold chars. cbn [list_ascii_of_string filter String.length].
  destruct (needs_quoting c); cbn [List.length]; lia.
Qed.

(** X19. Quoting keeps a name as it is exactly when the name is made of
    letters, digits, the marks [_.-~] and '/'; every other character makes
    the quoted name two characters longer. *)
Theorem quote_length_and_fixed_points compound_name :
  String.length (quote compound_name)
  = String.length compound_name
    + 2 * List.length (filter needs_quoting (chars compound_name))
  /\ (quote compound_name = compound_name
      <-> forall c, In c (chars compound_name) -> always_safe c = true \/ c = "/"%char).
Proof.
  split; [ apply quote_length | ]. split.
  - intros Hfix c Hc.
    pose proof (quote_length compound_name) as Hlen. rewrite Hfix in Hlen.
    destruct (needs_quoting c) eqn:Hq.
    + assert (Hin : In c (filter needs_quoting (chars compound_name)))
        by (apply filter_In; now split).
      destruct (filter needs_quoting (chars compound_name)); [ destruct Hin | ].
      cbn [List.length] in Hlen. lia.
    + unfold needs_quoting in Hq. apply negb_false_iff, orb_true_iff in Hq.
      destruct Hq as [Hq | Hq]; [ now left | right; now apply Ascii.eqb_eq ].
  - induction compound_name as [ | c s IH ]; [ reflexivity | ].
    intros Hsafe. cbn [quote]. rewrite IH by (intros d Hd; apply Hsafe; now right).
    unfold quote_char.
    destruct (Hsafe c (or_introl eq_refl)) as [-> | ->]; reflexivity.
Qed.

Lemma hex_value_digit n : n < 16 -> hex_value (hex_digit n) = n.
Proof.
  intros Hn. do 16 (destruct n as [ | n ]; [ reflexivity | ]). lia.
Qed.

Lemma percent_encode_injective c1 c2 :
  percent_encode c1 = percent_encode c2 -> c1 = c2.
Proof.
  unfold percent_encode.
  assert (Hb1 : nat_of_ascii c1 < 256) by apply nat_ascii_bounded.
  assert (Hb2 : nat_of_ascii c2 < 256) by apply nat_ascii_bounded.
  pose proof (Nat.div_mod_eq (nat_of_ascii c1) 16) as Hc1.
  pose proof (Nat.div_mod_eq (nat_of_ascii c2) 16) as Hc2.
  assert (Hh1 : nat_of_ascii c1 / 16 < 16) by (apply Nat.Div0.div_lt_upper_bound; lia).
  assert (Hh2 : nat_of_ascii c2 / 16 < 16) by (apply Nat.Div0.div_lt_upper_bound; lia).
  assert (Hl1 : nat_of_ascii c1 mod 16 < 16) by (apply Nat.mod_upper_bound; lia).
  assert (Hl2 : nat_of_ascii c2 mod 16 < 16) by (apply Nat.mod_upper_bound; lia).
  set (h1 := nat_of_ascii c1 / 16) in *. set (l1 := nat_of_ascii c1 mod 16) in *.
  set (h2 := nat_of_ascii c2 / 16) in *. set (l2 := nat_of_ascii c2 mod 16) in *.
  clearbody h1 l1 h2 l2.
  intros [= Hhi Hlo].
  apply (f_equal hex_value) in Hhi, Hlo.
  rewrite !hex_value_digit in Hhi, Hlo by assumption.
  rewrite <- (ascii_nat_embedding c1), <- (ascii_nat_embedding c2). f_equal. lia.
Qed.

Lemma percent_encode_append_inv c1 c2 x y :
  (percent_encode c1 ++ x = percent_encode c2 ++ y)%string ->
  percent_encode c1 = percent_encode c2 /\ x = y.
Proof.
  unfold percent_encode.
  generalize (hex_digit (nat_of_ascii c1 / 16)) (hex_digit (nat_of_ascii c1 mod 16))
    (hex_digit (nat_of_ascii c2 / 16)) (hex_digit (nat_of_ascii c2 mod 16)).
  intros a1 b1 a2 b2. cbn [append]. intros [= -> -> ->]. now split.
Qed.

Lemma quote_injective s1 : forall s2, quote s1 = quote s2 -> s1 = s2.
Proof.
  induction s1 as [ | c1 s1 IH ]; intros [ | c2 s2 ]; cbn [quote].
  - reflexivity.
  - unfold quote_char, percent_encode. destruct (_ || _); discriminate.
  - unfold quote_char, percent_encode. destruct (_ || _); discriminate.
  - unfold quote_char.
    destruct (always_safe c1 || Ascii.eqb c1 "/") eqn:H1;
      destruct (always_safe c2 || Ascii.eqb c2 "/") eqn:H2.
    + cbn. intros [= -> Hrest]. f_equal. now apply IH.
    + unfold percent_encode. cbn. intros [= -> _]. discriminate H1.
    + unfold percent_encode. cbn. intros [= <- _]. discriminate H2.
    + intros H. apply percent_encode_append_inv in H. destruct H as [Hc Hrest].
      f_equal; [ now apply percent_encode_injective | now apply IH ].
Qed.

Lemma append_cancel_l s a b : (s ++ a = s ++ b)%string -> a = b.
Proof. induction s as [ | c s IH ]; cbn; [ auto | intros [= H]; auto ]. Qed.

Lemma append_cancel_r s a b : (a ++ s = b ++ s)%string -> a = b.
Proof.
  intros H. apply (f_equal chars) in H. rewrite !chars_app in H.
  apply app_inv_tail in H. unfold chars in H.
  rewrite <- (string_of_list_ascii_of_string a), <- (string_of_list_ascii_of_string b).
  now rewrite H.
Qed.

(** X20. Two names that differ are looked up at two URLs that differ: the
    identifier URL determines the name. *)
Theorem cid_url_injective name1 name2 :
  cid_url name1 = cid_url name2 -> name1 = name2.
Proof.
  unfold cid_url. intros H.
  apply append_cancel_l, append_cancel_l, append_cancel_r in H.
  now apply quote_injective.
Qed.

Lemma cid_url_injective_witness :
  cid_url "methyl oleate" = cid_url ("methyl" ++ " " ++ "oleate")%string
  /\ "methyl oleate" = ("methyl" ++ " " ++ "oleate")%string.
Proof.
  split; [ reflexivity | ].
  apply cid_url_injective. reflexivity.
Defined.

(** ** The summary of the main block *)

Lemma is_found_result_row compound_name smiles :
  is_found (result_row compound_name smiles) = py_truthy smiles.
Proof. unfold is_found. cbn. now destruct (py_truthy smiles). Qed.

Lemma batch_get_smiles_table py_str net sleep_raises compound_names delay n df :
  fst (batch_get_smiles py_str net sleep_raises compound_names delay n) = Return df ->
  df = pd_DataFrame (records df).
Proof.
  rewrite batch_get_smiles_run.
  destruct (batch_loop _ _ _ _ _ _ _ _ _) as [[results | e] evs]; [ | discriminate ].
  cbn. now intros [= <-].
Qed.

(** The values behind the rows of a table. *)
Lemma result_rows_values py_str net compound_names rows :
  Forall2 (fun compound_name row =>
             exists smiles n',
               fst (get_smiles_from_pubchem py_str net compound_name n') = Return smiles
               /\ row = result_row compound_name smiles)
          compound_names rows ->
  exists values,
    Forall2 (fun compound_name smiles =>
               exists n',
                 fst (get_smiles_from_pubchem py_str net compound_name n') = Return smiles)
            compound_names values
    /\ List.length (filter is_found rows) = List.length (filter py_truthy values).
Proof.
  induction 1 as [ | name row names rows (smiles & n' & Hrun & ->) _ (values & Hvalues & Hcount) ].
  - exists []. split; [ constructor | reflexivity ].
  - exists (smiles :: values). split.
    + constructor; [ now exists n' | exact Hvalues ].
    + cbn [filter]. rewrite is_found_result_row.
      destruct (py_truthy smiles); cbn [List.length]; now rewrite Hcount.
Qed.

(** X21. On the table of a batch, the total of the summary is the number
    of names.  For a batch of one name or more its count of found compounds
    is the number of names whose lookup, in the batch, returned a truthy
    value, at most the total; on the table of the empty batch, which has no
    column Status, the expression that counts them raises [KeyError]. *)
Theorem summary_of_batch py_str net sleep_raises compound_names delay n df :
  fst (batch_get_smiles py_str net sleep_raises compound_names delay n) = Return df ->
  total_count df = List.length compound_names
  /\ (compound_names <> [] ->
      exists values,
        Forall2 (fun compound_name smiles =>
                   exists n',
                     fst (get_smiles_from_pubchem py_str net compound_name n')
                     = Return smiles)
                compound_names values
        /\ found_count df = Return (List.length (filter py_truthy values))
        /\ List.length (filter py_truthy values) <= total_count df)
  /\ (compound_names = [] -> found_count df = Raise KeyError).
Proof.
  intros Hdf. pose proof (batch_get_smiles_table _ _ _ _ _ _ _ Hdf) as Htable.
  pose proof (batch_get_smiles_records _ _ _ _ _ _ _ Hdf) as Hrows.
  split; [ | split ].
  - unfold total_count, nrows. symmetry. exact (Forall2_length Hrows).
  - intros Hnames.
    destruct (result_rows_values _ _ _ _ Hrows) as (values & Hvalues & Hcount).
    exists values. split; [ exact Hvalues | ].
    assert (Hall : Forall (fun row => exists compound_name smiles,
                               row = result_row compound_name smiles) (records df)).
    { apply (Forall2_Forall_right _ _ _ _ Hrows).
      intros name row (smiles & n' & _ & ->). now exists name, smiles. }
    split.
    + unfold found_count. rewrite Htable at 1. cbn [columns pd_DataFrame].
      rewrite (columns_of_result_rows (records df) [] Hall).
      * cbn. now rewrite Hcount.
      * right. split; [ reflexivity | ].
        destruct Hrows; [ congruence | discriminate ].
    + rewrite <- Hcount. unfold total_count, nrows. apply filter_length_le.
  - intros ->. assert (Hnil : records df = []) by (inversion Hrows; reflexivity).
    rewrite Htable, Hnil. reflexivity.
Qed.

Lemma summary_of_batch_witness :
  found_count (pd_DataFrame [result_row "mesitylene" (PStr "CC1=CC(=CC(=C1)C)C");
                             result_row "undecane" PNone])
  = Return 1
  /\ total_count (pd_DataFrame [result_row "mesitylene" (PStr "CC1=CC(=CC(=C1)C)C");
                                result_row "undecane" PNone]) = 2.
Proof.
  destruct (summary_of_batch str_scalar mesitylene_net cpython_sleep_raises
              ["mesitylene"; "undecane"] default_delay 0
              (pd_DataFrame [result_row "mesitylene" (PStr "CC1=CC(=CC(=C1)C)C");
                             result_row "undecane" PNone]) eq_refl)
    as (Htotal & _ & _).
  split; [ reflexivity | exact Htotal ].
Defined.
